(** * Selection-bias meme pipeline: glyph mask, threshold masking, panel check

    A shallow embedding of the three Python modules of the repository

    - [step5_create_masked.py]       ([create_masked_stipple]),
    - [step4_create_block_letter.py] ([_find_font_path], [create_block_letter_s]),
    - [create_meme.py]               ([create_statistics_meme]),

    together with the properties that their specification states about them.

    Python values are modelled as follows.  An [int] is a [Z]; a [float] is an
    IEEE 754 binary64 value of the Standard Library's [spec_float]; a [str] is
    a [string]; an exception is a class with a message and a call either
    returns or raises ([result]).  A NumPy array is a record of its dtype, its
    shape and its samples in row-major order; arrays live in a heap and are
    passed by reference, as Python passes them.  The imaging and plotting
    libraries are not part of the repository: their calls are operations of
    an interface ([Pillow], [Matplotlib]) that the functions are written
    against. *)

From Stdlib Require Import ZArith Bool Lia.
From Stdlib Require Import Floats.SpecFloat.
From Stdlib Require Import Strings.Byte Strings.Ascii.
From Stdlib Require Import DecimalString.
From stdpp Require Import base list strings.

Local Open Scope Z_scope.

(** ** Python: exceptions and results *)

Module Py.

(** The exception classes that the three modules raise or catch.  An
    instance of a subclass is identified with the class that a handler of
    the source matches it by ([IOError] is [OSError]); [OtherError] stands
    for every class that no handler of the source names. *)
Inductive exn_class :=
| ValueError
| OSError
| AttributeError
| TypeError
| OverflowError
| ZeroDivisionError
| IndexError
| OtherError.

Record exn := Exn { exn_cls : exn_class; exn_msg : string }.

Inductive result (A : Type) :=
| Ok (a : A)
| Raise (e : exn).
Arguments Ok {A} a.
Arguments Raise {A} e.

Definition exn_class_eqb (c d : exn_class) : bool :=
  match c, d with
  | ValueError, ValueError | OSError, OSError
  | AttributeError, AttributeError | TypeError, TypeError
  | OverflowError, OverflowError | ZeroDivisionError, ZeroDivisionError
  | IndexError, IndexError | OtherError, OtherError => true
  | _, _ => false
  end.

Definition bind {A B} (m : result A) (k : A -> result B) : result B :=
  match m with
  | Ok a => k a
  | Raise e => Raise e
  end.

(** [try: m  except (c1, ..., cn): h] *)
Definition try_except {A} (m : result A) (classes : list exn_class)
    (h : result A) : result A :=
  match m with
  | Ok a => Ok a
  | Raise e =>
      if existsb (exn_class_eqb (exn_cls e)) classes then h else Raise e
  end.

(** [try: m  except: h] (a bare [except] catches every exception). *)
Definition try_except_all {A} (m : result A) (h : result A) : result A :=
  match m with
  | Ok a => Ok a
  | Raise _ => h
  end.

End Py.

Export Py.

Declare Scope py_scope.
Delimit Scope py_scope with py.
Notation "x <- m ;; k" := (Py.bind m (fun x => k))
  (at level 100, m at next level, right associativity) : py_scope.

(** ** Python: numbers *)

Module PyNum.

(** A Python [float] is a binary64 value. *)
Definition pyfloat := spec_float.

Definition prec64 : Z := 53.
Definition emax64 : Z := 1024.
Definition prec32 : Z := 24.
Definition emax32 : Z := 128.

(** [float(n)] for an [int]: the nearest binary64 value, ties to even;
    [OverflowError] when the integer is out of the range of a float. *)
Definition float_of_int (n : Z) : result pyfloat :=
  match binary_normalize prec64 emax64 n 0 false with
  | S754_infinity _ =>
      Raise (Exn OverflowError "int too large to convert to float")
  | f => Ok f
  end.

(** [int(x)] for a [float]: truncation towards zero. *)
Definition int_of_float (x : pyfloat) : result Z :=
  match x with
  | S754_zero _ => Ok 0
  | S754_nan => Raise (Exn ValueError "cannot convert float NaN to integer")
  | S754_infinity _ =>
      Raise (Exn OverflowError "cannot convert float infinity to integer")
  | S754_finite s m e =>
      let a := Z.shiftl (Z.pos m) e in
      Ok (if s then - a else a)
  end.

(** The quotient of two integer literals as the float nearest to it: the
    value of a decimal literal such as [0.9] (= 9/10) or [0.5]. *)
Definition float_lit (num den : positive) : pyfloat :=
  SFdiv prec64 emax64
    (binary_normalize prec64 emax64 (Z.pos num) 0 false)
    (binary_normalize prec64 emax64 (Z.pos den) 0 false).

(** A number is an [int] or a [float]. *)
Inductive pynum :=
| PyInt (n : Z)
| PyFloat (x : pyfloat).

Definition to_float (a : pynum) : result pyfloat :=
  match a with
  | PyInt n => float_of_int n
  | PyFloat x => Ok x
  end.

Definition py_sub (a b : pynum) : result pynum :=
  match a, b with
  | PyInt m, PyInt n => Ok (PyInt (m - n))
  | _, _ =>
      (x <- to_float a ;; y <- to_float b ;;
       Ok (PyFloat (SFsub prec64 emax64 x y)))%py
  end.

Definition py_mul (a b : pynum) : result pynum :=
  match a, b with
  | PyInt m, PyInt n => Ok (PyInt (m * n))
  | _, _ =>
      (x <- to_float a ;; y <- to_float b ;;
       Ok (PyFloat (SFmul prec64 emax64 x y)))%py
  end.

Definition is_zero (x : pyfloat) : bool :=
  match x with S754_zero _ => true | _ => false end.

(** An integer as an unrounded mantissa with exponent zero. *)
Definition int_as_mantissa (n : Z) : spec_float :=
  match n with
  | Z0 => S754_zero false
  | Zpos p => S754_finite false p 0
  | Zneg p => S754_finite true p 0
  end.

(** True division [a / b].  On two integers Python rounds the exact
    quotient once; [SFdiv] on the integers as mantissas does the same. *)
Definition py_truediv (a b : pynum) : result pynum :=
  match a, b with
  | PyInt m, PyInt n =>
      if n =? 0 then Raise (Exn ZeroDivisionError "division by zero")
      else
        match SFdiv prec64 emax64
                (int_as_mantissa m) (int_as_mantissa n) with
        | S754_infinity _ =>
            Raise (Exn OverflowError
                     "integer division result too large for a float")
        | q => Ok (PyFloat q)
        end
  | _, _ =>
      (x <- to_float a ;; y <- to_float b ;;
       if is_zero y
       then Raise (Exn ZeroDivisionError "float division by zero")
       else Ok (PyFloat (SFdiv prec64 emax64 x y)))%py
  end.

End PyNum.

Export PyNum.

(** ** NumPy: arrays of floating-point samples *)

Module Np.

(** The sample formats of a raster. *)
Inductive dtype := float32 | float64.

(** A Python [float] converted to the format [dt] (round to nearest, ties
    to even): what NumPy does to the scalar operand of [array < scalar],
    [array / scalar] and [array[...] = scalar]. *)
Definition astype (dt : dtype) (x : pyfloat) : spec_float :=
  match dt, x with
  | float32, S754_finite s m e => binary_round prec32 emax32 s m e
  | _, _ => x
  end.

Definition zero : pyfloat := S754_zero false.
Definition one : pyfloat := SFone prec64 emax64.

(** An array: its dtype, its shape and its samples in row-major order. *)
Record ndarray := Ndarray {
  dtype_of : dtype;
  shape : list nat;
  data : list spec_float
}.

(** Number of samples of an array of a given shape. *)
Definition numel (sh : list nat) : nat := foldr Nat.mul 1%nat sh.

Definition well_formed (a : ndarray) : Prop :=
  length (data a) = numel (shape a).

(** A boolean array, the value of a comparison. *)
Record bool_array := BoolArray {
  bshape : list nat;
  bits : list bool
}.

(** [x < t] for a sample [x] of an array of dtype [dt] and a scalar [t]. *)
Definition less_scalar (dt : dtype) (x : spec_float) (t : pyfloat) : bool :=
  SFltb x (astype dt t).

(** [a < t], elementwise. *)
Definition less (a : ndarray) (t : pyfloat) : bool_array :=
  {| bshape := shape a;
     bits := map (fun x => less_scalar (dtype_of a) x t) (data a) |}.

(** [a[mask] = v]: the samples of [a] at the true positions of [mask]
    become [v]; NumPy refuses a mask of another shape. *)
Definition setitem_mask (a : ndarray) (mask : bool_array) (v : pyfloat)
  : result ndarray :=
  if bool_decide (bshape mask = shape a) then
    Ok {| dtype_of := dtype_of a;
          shape := shape a;
          data := zip_with
                    (fun (b : bool) x => if b then astype (dtype_of a) v else x)
                    (bits mask) (data a) |}
  else
    Raise (Exn IndexError
             "boolean index did not match indexed array").

(** [a[r, c]] of a two-dimensional array. *)
Definition getitem2 (a : ndarray) (r c : nat) : option spec_float :=
  match shape a with
  | [h; w] =>
      if bool_decide (r < h)%nat && bool_decide (c < w)%nat
      then data a !! (r * w + c)%nat
      else None
  | _ => None
  end.

(** [str] of a shape tuple: [()], [(3,)], [(10, 12)]. *)
Definition str_of_nat (n : nat) : string :=
  NilEmpty.string_of_uint (Nat.to_uint n).

Fixpoint str_of_dims (sh : list nat) : string :=
  match sh with
  | [] => ""
  | [n] => str_of_nat n
  | n :: rest => str_of_nat n +:+ ", " +:+ str_of_dims rest
  end.

Definition str_of_shape (sh : list nat) : string :=
  match sh with
  | [n] => "(" +:+ str_of_nat n +:+ ",)"
  | _ => "(" +:+ str_of_dims sh +:+ ")"
  end.

End Np.

Export Np.

(** ** The heap of arrays *)

Module Heap.

(** Arrays are objects: a variable holds a reference ([loc]) into the heap,
    and two variables may hold the same reference. *)
Definition loc := nat.
Definition heap := list ndarray.

(** A computation on the heap returns or raises, and leaves a heap; [None]
    is a use of a reference to no object, which Python cannot form. *)
Definition M (A : Type) : Type := heap -> option (result A * heap).

Definition ret {A} (a : A) : M A := fun h => Some (Ok a, h).

Definition raise {A} (e : exn) : M A := fun h => Some (Raise e, h).

Definition bind {A B} (m : M A) (k : A -> M B) : M B :=
  fun h =>
    match m h with
    | Some (Ok a, h') => k a h'
    | Some (Raise e, h') => Some (Raise e, h')
    | None => None
    end.

Definition lift {A} (r : result A) : M A := fun h => Some (r, h).

Definition load (l : loc) : M ndarray :=
  fun h => match h !! l with Some a => Some (Ok a, h) | None => None end.

Definition alloc (a : ndarray) : M loc :=
  fun h => Some (Ok (length h), h ++ [a]).

Definition store (l : loc) (a : ndarray) : M unit :=
  fun h =>
    match h !! l with
    | Some _ => Some (Ok tt, <[l := a]> h)
    | None => None
    end.

End Heap.

Export Heap.

Declare Scope heap_scope.
Delimit Scope heap_scope with heap.
Notation "x <- m ;; k" := (Heap.bind m (fun x => k))
  (at level 100, m at next level, right associativity) : heap_scope.
Notation "m ;; k" := (Heap.bind m (fun _ => k))
  (at level 100, right associativity) : heap_scope.

(** ** step5_create_masked.py *)

Module Step5.

(** [a.shape] *)
Definition get_shape (a : loc) : M (list nat) :=
  (x <- load a ;; Heap.ret (shape x))%heap.

(** [a.copy()]: a new array with the dtype, shape and samples of [a]. *)
Definition copy (a : loc) : M loc :=
  (x <- load a ;; alloc x)%heap.

(** [a < t]: the comparison allocates its boolean result, which no other
    variable refers to; it is kept as a value. *)
Definition less_than (a : loc) (t : pyfloat) : M bool_array :=
  (x <- load a ;; Heap.ret (less x t))%heap.

(** [a[mask] = v], in place. *)
Definition setitem (a : loc) (mask : bool_array) (v : pyfloat) : M unit :=
  (x <- load a ;;
   y <- lift (setitem_mask x mask v) ;;
   store a y)%heap.

Definition shape_error (s m : list nat) : exn :=
  Exn ValueError
    ("Images must have the same shape. "
     +:+ "stipple_img shape: " +:+ str_of_shape s +:+ ", "
     +:+ "mask_img shape: " +:+ str_of_shape m).

Definition default_threshold : pyfloat := float_lit 1 2.

Definition create_masked_stipple (stipple_img mask_img : loc)
    (threshold : pyfloat) : M loc :=
  (stipple_shape <- get_shape stipple_img ;;
   mask_shape <- get_shape mask_img ;;
   if bool_decide (stipple_shape ≠ mask_shape) then
     raise (shape_error stipple_shape mask_shape)
   else
     masked_stipple <- copy stipple_img ;;
     mask_area <- less_than mask_img threshold ;;
     setitem masked_stipple mask_area one ;;
     Heap.ret masked_stipple)%heap.

End Step5.

Export Step5.

(** ** step4_create_block_letter.py *)

Module Step4.

(** A PIL image of mode ['L']: a size and one 8-bit sample per pixel,
    addressed by column and row. *)
Record image := Image {
  im_width : Z;
  im_height : Z;
  im_pixel : Z -> Z -> byte
}.

(** The calls that the module makes into [platform], [os] and PIL.  A call
    returns or raises; nothing more is known of it here.

    - [Image_new_check w h] is the exception, if any, with which
      [Image.new('L', (w, h), color)] refuses the size; otherwise the call
      returns a canvas of that size filled with the colour.
    - [has_textbbox] is [hasattr(draw, 'textbbox')].
    - [draw_text] is [draw.text(xy, text, fill, font)], with or without a
      font: drawing writes samples of the canvas and leaves its size, so
      the call yields the samples after it. *)
Class Pillow := {
  font : Type;
  platform_system : string;
  path_exists : string -> bool;
  Image_new_check : Z -> Z -> option exn;
  truetype : string -> Z -> result font;
  load_default : result font;
  has_textbbox : bool;
  textbbox : image -> pynum * pynum -> string -> font
             -> result (pynum * pynum * pynum * pynum);
  textsize : image -> string -> font -> result (pynum * pynum);
  draw_text : image -> pynum * pynum -> string -> byte -> option font
              -> result (Z -> Z -> byte)
}.

(** The candidate fonts of each operating system, in the order of the
    source. *)
Definition windows_fonts : list string :=
  [ "C:/Windows/Fonts/arialbd.ttf";
    "C:/Windows/Fonts/arial.ttf";
    "C:/Windows/Fonts/calibrib.ttf";
    "C:/Windows/Fonts/calibri.ttf";
    "C:/Windows/Fonts/impact.ttf";
    "C:/Windows/Fonts/timesbd.ttf" ].

Definition darwin_fonts : list string :=
  [ "/Library/Fonts/Arial Bold.ttf";
    "/Library/Fonts/Arial.ttf";
    "/Library/Fonts/Helvetica Bold.ttf";
    "/Library/Fonts/Helvetica.ttf";
    "/System/Library/Fonts/Helvetica.ttc";
    "/System/Library/Fonts/Supplemental/Arial Bold.ttf" ].

Definition linux_fonts : list string :=
  [ "/usr/share/fonts/truetype/dejavu/DejaVuSans-Bold.ttf";
    "/usr/share/fonts/truetype/liberation/LiberationSans-Bold.ttf";
    "/usr/share/fonts/truetype/liberation/LiberationSans-Regular.ttf";
    "/usr/share/fonts/truetype/noto/NotoSans-Bold.ttf" ].

Definition font_paths (system : string) : list string :=
  if String.eqb system "Windows" then windows_fonts
  else if String.eqb system "Darwin" then darwin_fonts
  else linux_fonts.

Section WithPillow.
Context {pil : Pillow}.

(** [for font_path in font_paths: if os.path.exists(font_path): return
    font_path]; [return None] after the loop. *)
Fixpoint first_existing (paths : list string) : option string :=
  match paths with
  | [] => None
  | font_path :: rest =>
      if path_exists font_path then Some font_path
      else first_existing rest
  end.

Definition _find_font_path : option string :=
  first_existing (font_paths platform_system).

(** [Image.new('L', (width, height), color=color)] *)
Definition Image_new (width height : Z) (color : byte) : result image :=
  match Image_new_check width height with
  | Some e => Raise e
  | None => Ok (Image width height (fun _ _ => color))
  end.

(** [int(v)] *)
Definition py_int (v : pynum) : result Z :=
  match v with
  | PyInt n => Ok n
  | PyFloat x => int_of_float x
  end.

(** [int(min(height, width) * font_size_ratio)] *)
Definition compute_font_size (height width : Z) (font_size_ratio : pyfloat)
  : result Z :=
  (v <- py_mul (PyInt (Z.min height width)) (PyFloat font_size_ratio) ;;
   py_int v)%py.

(** A [str] is true when it is not empty. *)
Definition str_truth (s : string) : bool := negb (String.eqb s "").

(** Lines 96-102: the bold font, [None] when no candidate exists or the
    one that was found does not load. *)
Definition load_bold_font (font_size : Z) : result (option font) :=
  match _find_font_path with
  | Some font_path =>
      if str_truth font_path then
        try_except
          (f <- truetype font_path font_size ;; Ok (Some f))%py
          [OSError]
          (Ok None)
      else Ok None
  | None => Ok None
  end.

(** Lines 104-110: PIL's default font when there is no bold font. *)
Definition resolve_font (font_size : Z) : result (option font) :=
  (fnt <- load_bold_font font_size ;;
   match fnt with
   | Some f => Ok (Some f)
   | None =>
       try_except_all (f <- load_default ;; Ok (Some f))%py (Ok None)
   end)%py.

(** [len(letter)], for a string of ASCII characters. *)
Definition len (s : string) : Z := Z.of_nat (String.length s).

(** The estimate of the text size: [font_size * len(letter) * 0.6] wide,
    [font_size] high, no vertical offset. *)
Definition estimate_size (font_size : Z) (letter : string)
  : result (pynum * pynum * pynum) :=
  (n <- py_mul (PyInt font_size) (PyInt (len letter)) ;;
   text_width <- py_mul n (PyFloat (float_lit 6 10)) ;;
   Ok (text_width, PyInt font_size, PyInt 0))%py.

(** Lines 114-136: width, height and vertical offset of the text.  A font
    object of PIL is true in a condition, so [if font:] is the test that the
    font is not [None]. *)
Definition measure_text (img : image) (fnt : option font)
    (font_size : Z) (letter : string) : result (pynum * pynum * pynum) :=
  match fnt with
  | Some f =>
      try_except
        (if has_textbbox then
           (bbox <- textbbox img (PyInt 0, PyInt 0) letter f ;;
            let '(b0, b1, b2, b3) := bbox in
            text_width <- py_sub b2 b0 ;;
            text_height <- py_sub b3 b1 ;;
            Ok (text_width, text_height, b1))%py
         else
           (sz <- textsize img letter f ;;
            let '(text_width, text_height) := sz in
            Ok (text_width, text_height, PyInt 0))%py)
        [AttributeError; TypeError]
        (estimate_size font_size letter)
  | None => estimate_size font_size letter
  end.

(** [x = (width - text_width) / 2] and
    [y = (height - text_height) / 2 - bbox_y_offset] *)
Definition center_text (height width : Z)
    (text_width text_height bbox_y_offset : pynum)
  : result (pynum * pynum) :=
  (dx <- py_sub (PyInt width) text_width ;;
   x <- py_truediv dx (PyInt 2) ;;
   dy <- py_sub (PyInt height) text_height ;;
   hy <- py_truediv dy (PyInt 2) ;;
   y <- py_sub hy bbox_y_offset ;;
   Ok (x, y))%py.

(** An 8-bit sample as a float32, and that float32 divided by [255.0]. *)
Definition float32_of_byte (b : byte) : spec_float :=
  binary_normalize prec32 emax32 (Z.of_N (Byte.to_N b)) 0 false.

Definition normalize_sample (b : byte) : spec_float :=
  SFdiv prec32 emax32 (float32_of_byte b) (astype float32 (float_lit 255 1)).

(** [np.array(img, dtype=np.float32) / 255.0]: [height] rows of [width]
    samples. *)
Definition normalized_array (img : image) : ndarray :=
  let h := Z.to_nat (im_height img) in
  let w := Z.to_nat (im_width img) in
  {| dtype_of := float32;
     shape := [h; w];
     data :=
       flat_map
         (fun r => map (fun c => normalize_sample
                                   (im_pixel img (Z.of_nat c) (Z.of_nat r)))
                       (seq 0 w))
         (seq 0 h) |}.

Definition default_letter : string := "S".
Definition default_font_size_ratio : pyfloat := float_lit 9 10.

(** The body of the function, step by step.  [ImageDraw.Draw(img)] only
    wraps the canvas, so the drawing calls take the canvas itself. *)

Definition create_block_letter_s (height width : Z) (letter : string)
    (font_size_ratio : pyfloat) : result ndarray :=
  (img <- Image_new width height Byte.xff ;;
   font_size <- compute_font_size height width font_size_ratio ;;
   fnt <- resolve_font font_size ;;
   m <- measure_text img fnt font_size letter ;;
   let '(text_width, text_height, bbox_y_offset) := m in
   xy <- center_text height width text_width text_height bbox_y_offset ;;
   pixels <- draw_text img xy letter Byte.x00 fnt ;;
   let img := Image (im_width img) (im_height img) pixels in
   Ok (normalized_array img))%py.

End WithPillow.

End Step4.

Export Step4.

(** ** create_meme.py *)

Module Meme.

(** The calls that the module makes into Matplotlib, with the arguments
    that vary. *)
Inductive mpl_call :=
| Figure (facecolor : string) (dpi : Z)
| GridSpec (rows cols : nat)
| AddSubplot (i : nat)
| Imshow (i : nat) (img : ndarray)
| AxisOff (i : nat)
| AxText (i : nat) (label : string)
| Savefig (output_path : string) (dpi : Z) (facecolor : string)
| Close.

(** [mpl_raises done c] is the exception, if any, that the call [c] raises
    when the calls [done] have been made before it. *)
Class Matplotlib := {
  mpl_raises : list mpl_call -> mpl_call -> option exn
}.

(** A computation that plots: it returns or raises, and extends the list of
    the Matplotlib calls made so far. *)
Definition P (A : Type) : Type := list mpl_call -> result A * list mpl_call.

Definition ret {A} (a : A) : P A := fun log => (Ok a, log).

Definition bind {A B} (m : P A) (k : A -> P B) : P B :=
  fun log =>
    match m log with
    | (Ok a, log') => k a log'
    | (Raise e, log') => (Raise e, log')
    end.

Definition lift {A} (r : result A) : P A := fun log => (r, log).

Definition call `{Matplotlib} (c : mpl_call) : P unit :=
  fun log =>
    match mpl_raises log c with
    | Some e => (Raise e, log ++ [c])
    | None => (Ok tt, log ++ [c])
    end.

(** [xs[i]] *)
Definition getitem {A} (xs : list A) (i : nat) : result A :=
  match xs !! i with
  | Some x => Ok x
  | None => Raise (Exn IndexError "list index out of range")
  end.

End Meme.

Export Meme.

Declare Scope plot_scope.
Delimit Scope plot_scope with plot.
Notation "x <- m ;; k" := (Meme.bind m (fun x => k))
  (at level 100, m at next level, right associativity) : plot_scope.
Notation "m ;; k" := (Meme.bind m (fun _ => k))
  (at level 100, right associativity) : plot_scope.

Module MemeCode.

Definition panel_error (name : string) (sh img_shape : list nat) : exn :=
  Exn ValueError
    ("All images must have the same shape. "
     +:+ name +:+ "_img shape: " +:+ str_of_shape sh
     +:+ ", expected: " +:+ str_of_shape img_shape).

(** [for name, img in images.items(): if img.shape != img_shape: raise ...]:
    the dictionary is walked in the order in which its keys were
    written. *)
Fixpoint check_shapes (images : list (string * ndarray))
    (img_shape : list nat) : result unit :=
  match images with
  | [] => Ok tt
  | (name, img) :: rest =>
      if bool_decide (shape img ≠ img_shape) then
        Raise (panel_error name (shape img) img_shape)
      else check_shapes rest img_shape
  end.

Section WithMatplotlib.
Context {mpl : Matplotlib}.

(** The body of [for i in range(4)]. *)
Definition draw_panel (panel_images : list ndarray) (labels : list string)
    (i : nat) : P unit :=
  (call (AddSubplot i) ;;
   img <- Meme.lift (getitem panel_images i) ;;
   call (Imshow i img) ;;
   call (AxisOff i) ;;
   label <- Meme.lift (getitem labels i) ;;
   call (AxText i label))%plot.

Fixpoint for_each (range : list nat) (body : nat -> P unit) : P unit :=
  match range with
  | [] => Meme.ret tt
  | i :: rest => (body i ;; for_each rest body)%plot
  end.

Definition create_statistics_meme
    (original_img stipple_img block_letter_img masked_stipple_img : ndarray)
    (output_path : string) (dpi : Z) (background_color : string) : P unit :=
  let img_shape := shape original_img in
  let images :=
    [ ("original", original_img);
      ("stipple", stipple_img);
      ("block_letter", block_letter_img);
      ("masked_stipple", masked_stipple_img) ] in
  (Meme.lift (check_shapes images img_shape) ;;
   let labels := ["Reality"; "Your Model"; "Selection Bias"; "Estimate"] in
   let panel_images :=
     [original_img; stipple_img; block_letter_img; masked_stipple_img] in
   call (Figure background_color dpi) ;;
   call (GridSpec 1 4) ;;
   for_each (seq 0 4) (draw_panel panel_images labels) ;;
   call (Savefig output_path dpi background_color) ;;
   call Close)%plot.

End WithMatplotlib.

End MemeCode.

Export MemeCode.

(** ** Two implementations of the interfaces, to run the functions on *)

Module BoxFont.

(** A font whose every character fills a cell of ink, except the space,
    which draws nothing. *)
Record box_font := { cell_w : Z; cell_h : Z }.

Definition mem (p : string) (ps : list string) : bool :=
  existsb (String.eqb p) ps.

Definition origin (v : pynum) : Z :=
  match v with
  | PyInt n => n
  | PyFloat x => match int_of_float x with Ok n => n | Raise _ => 0 end
  end.

Definition char_at (s : string) (i : Z) : option Ascii.ascii :=
  String.get (Z.to_nat i) s.

Definition inked (s : string) (f : box_font) (ox oy c r : Z) : bool :=
  (ox <=? c) && (c <? ox + cell_w f * Z.of_nat (String.length s))
  && (oy <=? r) && (r <? oy + cell_h f)
  && (0 <? cell_w f)
  && match char_at s ((c - ox) / cell_w f) with
     | Some ch => negb (Ascii.eqb ch " "%char)
     | None => false
     end.

Definition default_box : box_font := {| cell_w := 6; cell_h := 11 |}.

(** The platform [system], on which the files [existing] exist and the
    files [loadable] are fonts that load.  [Image.new] refuses a negative
    size and [truetype] a size that is not positive. *)
Definition box_pillow (system : string) (existing loadable : list string)
  : Pillow :=
  {| font := box_font;
     platform_system := system;
     path_exists := fun p => mem p existing;
     Image_new_check := fun w h =>
       if (w <? 0) || (h <? 0)
       then Some (Exn ValueError "Width and height must be >= 0")
       else None;
     truetype := fun p size =>
       if mem p loadable then
         if size <=? 0
         then Raise (Exn ValueError "font size must be greater than 0")
         else Ok {| cell_w := Z.max 1 (size / 2); cell_h := size |}
       else Raise (Exn OSError "cannot open resource");
     load_default := Ok default_box;
     has_textbbox := true;
     textbbox := fun _ xy s f =>
       Ok (PyInt 0, PyInt 0,
           PyInt (cell_w f * Z.of_nat (String.length s)), PyInt (cell_h f));
     textsize := fun _ s f =>
       Ok (PyInt (cell_w f * Z.of_nat (String.length s)), PyInt (cell_h f));
     draw_text := fun img xy s fill fo =>
       let f := match fo with Some f => f | None => default_box end in
       Ok (fun c r =>
             if inked s f (origin (fst xy)) (origin (snd xy)) c r
             then fill else im_pixel img c r) |}.

(** A Matplotlib on which every call succeeds. *)
Definition quiet_matplotlib : Matplotlib :=
  {| mpl_raises := fun _ _ => None |}.

End BoxFont.

Export BoxFont.

(** ** Auxiliary definitions for the statements *)

(** The array that a successful [create_masked_stipple] leaves at the
    reference it returns, for a source [s], a mask [m] and a threshold [t]. *)
Definition masked_array (s m : ndarray) (t : pyfloat) : ndarray :=
  {| dtype_of := dtype_of s;
     shape := shape s;
     data := zip_with
               (fun (b : bool) x => if b then astype (dtype_of s) one else x)
               (bits (less m t)) (data s) |}.

(** [sub] occurs in [s]. *)
Fixpoint contains (sub s : string) : bool :=
  String.prefix sub s
  || match s with
     | EmptyString => false
     | String _ rest => contains sub rest
     end.

(** The samples of a raster lie in the closed interval from 0 to 1. *)
Definition in_unit_interval (dt : dtype) (x : spec_float) : Prop :=
  SFleb zero x = true /\ SFleb x (astype dt one) = true.

(** A raster has ink when one of its samples is below 1.0. *)
Definition has_ink (a : ndarray) : bool :=
  existsb (fun x => SFltb x (astype (dtype_of a) one)) (data a).

(** The font that stands in when no bold font was loaded: PIL's default
    font, and no font when that does not load either. *)
Definition fallback_font `{Pillow} : option font :=
  match load_default with
  | Ok f => Some f
  | Raise _ => None
  end.

(** Font resolution as the specification words it: the candidates are tried
    in order, and the first one that exists and loads at the pixel size is
    the active font. *)
Fixpoint spec_first_loadable `{Pillow} (paths : list string) (font_size : Z)
  : option font :=
  match paths with
  | [] => None
  | p :: rest =>
      if path_exists p then
        match truetype p font_size with
        | Ok f => Some f
        | Raise _ => spec_first_loadable rest font_size
        end
      else spec_first_loadable rest font_size
  end.

Definition spec_active_font `{Pillow} (font_size : Z) : option font :=
  match spec_first_loadable (font_paths platform_system) font_size with
  | Some f => Some f
  | None => fallback_font
  end.

(** No candidate font resolves: each candidate of the platform is absent or
    fails to load with an [OSError]. *)
Definition no_font_resolves `{Pillow} : Prop :=
  forall p, In p (font_paths platform_system) ->
    path_exists p = false
    \/ forall font_size, exists e,
         truetype p font_size = Raise e /\ exn_cls e = OSError.

(** The canvas that [Image.new] returns: every sample is 255. *)
Definition blank_canvas (width height : Z) : image :=
  Image width height (fun _ _ => Byte.xff).

(** Sample data: a 2 x 2 source, a 2 x 2 mask with the samples 0.5, 0.49,
    0.0 and 1.0, and a 2 x 3 array. *)
Definition sample_stipple : ndarray :=
  Ndarray float64 [2; 2]%nat
    [float_lit 1 5; float_lit 1 5; float_lit 3 10; one].

Definition sample_mask : ndarray :=
  Ndarray float64 [2; 2]%nat
    [float_lit 1 2; float_lit 49 100; zero; one].

Definition sample_wide : ndarray :=
  Ndarray float64 [2; 3]%nat [one; one; one; one; one; one].

(** Sample platforms: a Linux without any of the candidate fonts, and a
    Linux on which the first candidate exists and is not a font that loads
    while the last candidate exists and loads. *)
Definition linux_no_fonts : Pillow := box_pillow "Linux" [] [].

Definition dejavu_bold : string :=
  "/usr/share/fonts/truetype/dejavu/DejaVuSans-Bold.ttf".

Definition noto_bold : string :=
  "/usr/share/fonts/truetype/noto/NotoSans-Bold.ttf".

Definition linux_broken_first : Pillow :=
  box_pillow "Linux" [dejavu_bold; noto_bold] [noto_bold].

Definition linux_dejavu : Pillow :=
  box_pillow "Linux" [dejavu_bold] [dejavu_bold].

(** A float that is not a number or is infinite. *)
Definition is_nonfinite (x : pyfloat) : bool :=
  match x with
  | S754_nan | S754_infinity _ => true
  | _ => false
  end.

(** The 256 values of an 8-bit sample. *)
Definition all_bytes : list byte :=
  omap Byte.of_N (map N.of_nat (seq 0 256)).

(** Every float of the list is below all the floats after it. *)
Fixpoint increasing (vs : list spec_float) : bool :=
  match vs with
  | [] => true
  | v :: rest => forallb (SFltb v) rest && increasing rest
  end.

(** The four calls that draw one panel, and the calls of a whole meme in
    the order of the source. *)
Definition panel_calls (i : nat) (img : ndarray) (label : string)
  : list mpl_call :=
  [AddSubplot i; Imshow i img; AxisOff i; AxText i label].

Definition meme_calls
    (original_img stipple_img block_letter_img masked_stipple_img : ndarray)
    (output_path : string) (dpi : Z) (background_color : string)
  : list mpl_call :=
  [Figure background_color dpi; GridSpec 1 4]
  ++ panel_calls 0 original_img "Reality"
  ++ panel_calls 1 stipple_img "Your Model"
  ++ panel_calls 2 block_letter_img "Selection Bias"
  ++ panel_calls 3 masked_stipple_img "Estimate"
  ++ [Savefig output_path dpi background_color; Close].

(** A list of calls made one after the other, up to the first that
    raises. *)
Fixpoint run_calls `{Matplotlib} (cs : list mpl_call) : P unit :=
  match cs with
  | [] => Meme.ret tt
  | c :: rest => (call c ;; run_calls rest)%plot
  end.

(** A Matplotlib that cannot write the file: [savefig] raises. *)
Definition readonly_matplotlib : Matplotlib :=
  {| mpl_raises := fun _ c =>
       match c with
       | Savefig _ _ _ => Some (Exn OSError "Permission denied")
       | _ => None
       end |}.

(** Sample data of three dimensions: a float64 source and a float32 mask of
    the shape 1 x 2 x 2, and a second 2 x 2 mask. *)
Definition sample_cube : ndarray :=
  Ndarray float64 [1; 2; 2]%nat
    [float_lit 1 5; float_lit 1 5; float_lit 3 10; one].

Definition sample_cube_mask : ndarray :=
  Ndarray float32 [1; 2; 2]%nat
    [astype float32 (float_lit 1 2); astype float32 (float_lit 49 100);
     zero; astype float32 one].

Definition sample_mask2 : ndarray :=
  Ndarray float64 [2; 2]%nat
    [zero; one; one; S754_nan].

(** A platform like [p] on which measuring a text raises [e], with either
    interface. *)
Definition failing_measure (p : Pillow) (e : exn) : Pillow :=
  {| font := @font p;
     platform_system := @platform_system p;
     path_exists := @path_exists p;
     Image_new_check := @Image_new_check p;
     truetype := @truetype p;
     load_default := @load_default p;
     has_textbbox := @has_textbbox p;
     textbbox := fun _ _ _ _ => Raise e;
     textsize := fun _ _ _ => Raise e;
     draw_text := @draw_text p |}.

(** Sample data: the letter S on a canvas of 12 rows and 10 columns, and a
    source of that shape that is 0.2 everywhere. *)
Definition sample_glyph : ndarray :=
  match create_block_letter_s (pil := linux_dejavu) 12 10 "S"
          default_font_size_ratio with
  | Ok r => r
  | Raise _ => Ndarray float32 [] []
  end.

Definition sample_gray : ndarray :=
  Ndarray float64 [12; 10]%nat (repeat (float_lit 1 5) 120).

(** A float32 sample as the float64 of the same value (the conversion is
    exact), to compare it with a Python [float] without rounding. *)
Definition float64_of_float32 (x : spec_float) : pyfloat :=
  match x with
  | S754_finite s m e => binary_round prec64 emax64 s m e
  | _ => x
  end.

(** Sample data: a float64 source of one sample, 0.2, and a float32 mask of
    one sample, the float32 nearest to 0.7, which is below 0.7. *)
Definition sample_dot : ndarray :=
  Ndarray float64 [1; 1]%nat [float_lit 1 5].

Definition sample_mask32 : ndarray :=
  Ndarray float32 [1; 1]%nat [astype float32 (float_lit 7 10)].

(** A font of hollow characters: a character inks the border of its cell
    and leaves the inside of the cell as it is. *)
Definition ring_inked (s : string) (f : box_font) (ox oy c r : Z) : bool :=
  inked s f ox oy c r
  && (((c - ox) mod cell_w f =? 0)
      || ((c - ox) mod cell_w f =? cell_w f - 1)
      || (r =? oy) || (r =? oy + cell_h f - 1)).

(** The platform of [box_pillow] with the hollow characters.  As in PIL, the
    default font has a size of its own: [load_default] is not given the
    pixel size. *)
Definition ring_pillow (system : string) (existing loadable : list string)
  : Pillow :=
  let p := box_pillow system existing loadable in
  {| font := box_font;
     platform_system := @platform_system p;
     path_exists := @path_exists p;
     Image_new_check := @Image_new_check p;
     truetype := @truetype p;
     load_default := @load_default p;
     has_textbbox := @has_textbbox p;
     textbbox := @textbbox p;
     textsize := @textsize p;
     draw_text := fun img xy s fill fo =>
       let f := match fo with Some f => f | None => default_box end in
       Ok (fun c r =>
             if ring_inked s f (origin (fst xy)) (origin (snd xy)) c r
             then fill else im_pixel img c r) |}.

Definition ring_no_fonts : Pillow := ring_pillow "Linux" [] [].

Definition ring_dejavu : Pillow :=
  ring_pillow "Linux" [dejavu_bold] [dejavu_bold].

(* ================================================================== *)
(** * Properties *)

(** ** Floating-point comparison *)

Lemma SFcompare_refl x : SFcompare x x = Some Eq \/ SFcompare x x = None.
Proof.
  destruct x as [s|s| |s m e]; simpl; auto.
  - destruct s; auto.
  - rewrite Z.compare_refl, Pos.compare_cont_refl. destruct s; auto.
Qed.

Lemma SFltb_irrefl x : SFltb x x = false.
Proof.
  unfold SFltb. destruct (SFcompare_refl x) as [-> | ->]; reflexivity.
Qed.

Lemma SFleb_zero_not_ltb x : SFleb zero x = true -> SFltb x zero = false.
Proof.
  unfold SFleb, SFltb, zero.
  destruct x as [s|s| |s m e]; simpl; try destruct s; simpl; congruence.
Qed.

Lemma astype_zero dt : astype dt zero = zero.
Proof. destruct dt; reflexivity. Qed.

Lemma astype_one_float32 : astype float32 one = SFone prec32 emax32.
Proof. reflexivity. Qed.

Lemma less_scalar_same dt t : less_scalar dt (astype dt t) t = false.
Proof. apply SFltb_irrefl. Qed.

(** ** Strings *)

Lemma prefix_app (sub post : string) : String.prefix sub (sub +:+ post) = true.
Proof.
  induction sub as [|a sub IH]; simpl.
  - destruct post; reflexivity.
  - destruct (Ascii.ascii_dec a a); [exact IH | congruence].
Qed.

Lemma contains_prefix (sub s : string) :
  String.prefix sub s = true -> contains sub s = true.
Proof. intros H. destruct s; cbn [contains]; rewrite H; reflexivity. Qed.

Lemma prefix_refl (sub : string) : String.prefix sub sub = true.
Proof.
  induction sub as [|a sub IH]; simpl; [reflexivity |].
  destruct (Ascii.ascii_dec a a); [exact IH | congruence].
Qed.

Lemma contains_skip (pre sub s : string) :
  contains sub s = true -> contains sub (pre +:+ s) = true.
Proof.
  intros Hs. induction pre as [|a pre IH].
  - exact Hs.
  - change (contains sub (String a (pre +:+ s)) = true).
    cbn [contains]. rewrite IH. apply orb_true_r.
Qed.

Lemma contains_here (sub post : string) : contains sub (sub +:+ post) = true.
Proof. apply contains_prefix, prefix_app. Qed.

Lemma contains_refl (sub : string) : contains sub sub = true.
Proof. apply contains_prefix, prefix_refl. Qed.

(** ** Lists *)

Lemma lookup_map {A B} (f : A -> B) (l : list A) (i : nat) :
  map f l !! i = f <$> l !! i.
Proof.
  revert i. induction l as [|x l IH]; intros [|i]; simpl; auto.
Qed.

Lemma zip_with_idem {A} (f : bool -> A -> A) (bs : list bool) (xs : list A) :
  (forall b x, f b (f b x) = f b x) ->
  zip_with f bs (zip_with f bs xs) = zip_with f bs xs.
Proof.
  intros Hf. revert xs.
  induction bs as [|b bs IH]; intros [|x xs]; simpl; auto.
  rewrite Hf, IH. reflexivity.
Qed.

Lemma zip_with_all_false {A} (f : bool -> A -> A) (bs : list bool) (xs : list A) :
  (forall x, f false x = x) ->
  Forall (fun b => b = false) bs ->
  length bs = length xs ->
  zip_with f bs xs = xs.
Proof.
  intros Hf Hall. revert xs.
  induction Hall as [|b bs Hb Hall IH]; intros [|x xs] Hlen; simpl in *;
    try discriminate; auto.
  subst b. rewrite Hf, IH by lia. reflexivity.
Qed.

(** ** The heap *)

Lemma lookup_snoc_new (h : heap) (a : ndarray) : (h ++ [a]) !! length h = Some a.
Proof. apply list_lookup_middle. reflexivity. Qed.

Lemma insert_snoc_new (h : heap) (a b : ndarray) :
  <[length h := b]> (h ++ [a]) = h ++ [b].
Proof.
  rewrite insert_app_r_alt by lia. rewrite Nat.sub_diag. reflexivity.
Qed.

Lemma lookup_snoc_old (h : heap) (a b : ndarray) (l : loc) :
  h !! l = Some a -> (h ++ [b]) !! l = Some a.
Proof. apply lookup_app_l_Some. Qed.

(** ** create_masked_stipple: what a call does *)

Section Masking.

Variables (h : heap) (stipple_img mask_img : loc) (s m : ndarray).
Variable threshold : pyfloat.
Hypothesis Hs : h !! stipple_img = Some s.
Hypothesis Hm : h !! mask_img = Some m.

(** With equal shapes the call allocates one array, the masked copy of the
    source, and returns the reference to it. *)
Lemma create_masked_stipple_returns :
  shape s = shape m ->
  create_masked_stipple stipple_img mask_img threshold h
  = Some (Ok (length h), h ++ [masked_array s m threshold]).
Proof.
  intros Hshape.
  unfold create_masked_stipple, get_shape, copy, less_than, setitem.
  unfold Heap.bind, load, alloc, store, Heap.lift, Heap.ret.
  rewrite Hs, Hm.
  rewrite bool_decide_false by (intros Hne; exact (Hne Hshape)).
  rewrite Hs, (lookup_snoc_old _ _ _ _ Hm), lookup_snoc_new.
  unfold setitem_mask. cbn [bshape less].
  rewrite bool_decide_true by (symmetry; exact Hshape).
  rewrite lookup_snoc_new, insert_snoc_new.
  reflexivity.
Qed.

(** With different shapes the call raises and leaves the heap as it is. *)
Lemma create_masked_stipple_raises :
  shape s <> shape m ->
  create_masked_stipple stipple_img mask_img threshold h
  = Some (Raise (shape_error (shape s) (shape m)), h).
Proof.
  intros Hshape.
  unfold create_masked_stipple, get_shape.
  unfold Heap.bind, load, Heap.raise, Heap.ret.
  rewrite Hs, Hm.
  rewrite bool_decide_true by exact Hshape.
  reflexivity.
Qed.

End Masking.

(** ** The masked array *)

Lemma masked_array_shape s m t : shape (masked_array s m t) = shape s.
Proof. reflexivity. Qed.

Lemma masked_array_dtype s m t : dtype_of (masked_array s m t) = dtype_of s.
Proof. reflexivity. Qed.

Lemma masked_array_well_formed s m t :
  shape s = shape m -> well_formed s -> well_formed m ->
  well_formed (masked_array s m t).
Proof.
  unfold well_formed. intros Hsh Hs Hm. cbn [data masked_array shape less bits].
  rewrite length_zip_with_r_eq; [exact Hs |].
  rewrite length_map. congruence.
Qed.

Lemma masked_array_lookup s m t i vs vm :
  data s !! i = Some vs -> data m !! i = Some vm ->
  data (masked_array s m t) !! i
  = Some (if less_scalar (dtype_of m) vm t then astype (dtype_of s) one else vs).
Proof.
  intros Hs Hm. cbn [data masked_array less bits].
  rewrite lookup_zip_with, lookup_map, Hm, Hs. reflexivity.
Qed.

Lemma getitem2_in_range a H W r c :
  shape a = [H; W] -> well_formed a -> (r < H)%nat -> (c < W)%nat ->
  exists v, getitem2 a r c = Some v /\ data a !! (r * W + c)%nat = Some v.
Proof.
  unfold well_formed, getitem2. intros -> Hlen Hr Hc.
  rewrite !bool_decide_true by assumption. cbn [andb].
  destruct (lookup_lt_is_Some_2 (data a) (r * W + c)%nat) as [v Hv].
  - rewrite Hlen. cbn [numel foldr]. nia.
  - exists v. auto.
Qed.

Lemma getitem2_data a H W r c v :
  shape a = [H; W] -> getitem2 a r c = Some v ->
  (r < H)%nat /\ (c < W)%nat /\ data a !! (r * W + c)%nat = Some v.
Proof.
  unfold getitem2. intros ->.
  destruct (bool_decide (r < H)%nat) eqn:Hr; [|discriminate].
  destruct (bool_decide (c < W)%nat) eqn:Hc; [|discriminate].
  apply bool_decide_eq_true in Hr, Hc. cbn [andb]. auto.
Qed.

Lemma getitem2_masked s m t H W r c vs vm :
  shape s = [H; W] -> shape m = [H; W] ->
  getitem2 s r c = Some vs -> getitem2 m r c = Some vm ->
  getitem2 (masked_array s m t) r c
  = Some (if less_scalar (dtype_of m) vm t then astype (dtype_of s) one else vs).
Proof.
  intros Hs Hm Gs Gm.
  destruct (getitem2_data _ _ _ _ _ _ Hs Gs) as (Hr & Hc & Ds).
  destruct (getitem2_data _ _ _ _ _ _ Hm Gm) as (_ & _ & Dm).
  unfold getitem2. rewrite masked_array_shape, Hs.
  rewrite !bool_decide_true by assumption. cbn [andb].
  apply masked_array_lookup; assumption.
Qed.


(** ** create_masked_stipple: the claims *)

(** C1, as the code has it.  For equal-shaped two-dimensional [source] and
    [mask] and every threshold [t], the call returns a new array of the same
    shape whose sample at every coordinate [(r, c)] is 1.0 when
    [mask[r, c]] is below the threshold and [source[r, c]] otherwise.  The
    comparison is NumPy's: the threshold is first converted to the dtype of
    the mask, which leaves it as it is for a float64 mask and rounds it to
    the nearest float32 for a float32 mask.  A mask sample equal to the
    converted threshold keeps the source sample. *)
Theorem create_masked_stipple_pointwise
    (h : heap) (stipple_img mask_img : loc) (s m : ndarray) (t : pyfloat)
    (H W : nat) :
  h !! stipple_img = Some s -> h !! mask_img = Some m ->
  shape s = [H; W] -> shape m = [H; W] ->
  well_formed s -> well_formed m ->
  exists res,
    create_masked_stipple stipple_img mask_img t h
    = Some (Ok (length h), h ++ [res])
    /\ shape res = [H; W] /\ well_formed res
    /\ (forall r c, (r < H)%nat -> (c < W)%nat ->
        exists vs vm,
          getitem2 s r c = Some vs /\ getitem2 m r c = Some vm
          /\ getitem2 res r c
             = Some (if SFltb vm
                          (match dtype_of m with
                           | float64 => t
                           | float32 =>
                               match t with
                               | S754_finite sg mt e =>
                                   binary_round prec32 emax32 sg mt e
                               | _ => t
                               end
                           end)
                     then match dtype_of s with
                          | float64 => SFone prec64 emax64
                          | float32 => SFone prec32 emax32
                          end
                     else vs))
    /\ (dtype_of m = float64 ->
        forall r c vs vm,
          getitem2 s r c = Some vs -> getitem2 m r c = Some vm ->
          getitem2 res r c
          = Some (if SFltb vm t then astype (dtype_of s) one else vs))
    /\ (forall r c,
          getitem2 m r c = Some (astype (dtype_of m) t) ->
          getitem2 res r c = getitem2 s r c).
Proof.
  intros Hs Hm Ss Sm Ws Wm.
  assert (Heq : shape s = shape m) by congruence.
  assert (Hone : astype (dtype_of s) one
                 = match dtype_of s with
                   | float64 => SFone prec64 emax64
                   | float32 => SFone prec32 emax32
                   end) by (destruct (dtype_of s); reflexivity).
  assert (Hthr : astype (dtype_of m) t
                 = match dtype_of m with
                   | float64 => t
                   | float32 =>
                       match t with
                       | S754_finite sg mt e =>
                           binary_round prec32 emax32 sg mt e
                       | _ => t
                       end
                   end)
    by (destruct (dtype_of m), t; reflexivity).
  exists (masked_array s m t).
  split; [| split; [| split; [| split; [| split]]]].
  - apply create_masked_stipple_returns; assumption.
  - rewrite masked_array_shape. exact Ss.
  - apply masked_array_well_formed; assumption.
  - intros r c Hr Hc.
    destruct (getitem2_in_range s H W r c Ss Ws Hr Hc) as (vs & Gs & _).
    destruct (getitem2_in_range m H W r c Sm Wm Hr Hc) as (vm & Gm & _).
    exists vs, vm. repeat split; try assumption.
    rewrite (getitem2_masked s m t H W r c vs vm Ss Sm Gs Gm).
    unfold less_scalar. rewrite Hone, Hthr. reflexivity.
  - intros Hdt r c vs vm Gs Gm.
    rewrite (getitem2_masked s m t H W r c vs vm Ss Sm Gs Gm).
    unfold less_scalar. rewrite Hdt. reflexivity.
  - intros r c Gm.
    destruct (getitem2_data _ _ _ _ _ _ Sm Gm) as (Hr & Hc & _).
    destruct (getitem2_in_range s H W r c Ss Ws Hr Hc) as (vs & Gs & _).
    rewrite (getitem2_masked s m t H W r c vs _ Ss Sm Gs Gm).
    rewrite less_scalar_same. symmetry. exact Gs.
Qed.

Lemma create_masked_stipple_pointwise_witness :
  exists res,
    create_masked_stipple 0%nat 1%nat default_threshold
      [sample_stipple; sample_mask]
    = Some (Ok 2%nat, [sample_stipple; sample_mask] ++ [res])
    /\ shape res = [2; 2]%nat /\ well_formed res
    /\ (forall r c, (r < 2)%nat -> (c < 2)%nat ->
        exists vs vm,
          getitem2 sample_stipple r c = Some vs
          /\ getitem2 sample_mask r c = Some vm
          /\ getitem2 res r c
             = Some (if SFltb vm default_threshold
                     then SFone prec64 emax64 else vs))
    /\ (dtype_of sample_mask = float64 ->
        forall r c vs vm,
          getitem2 sample_stipple r c = Some vs ->
          getitem2 sample_mask r c = Some vm ->
          getitem2 res r c
          = Some (if SFltb vm default_threshold
                  then astype float64 one else vs))
    /\ (forall r c,
          getitem2 sample_mask r c = Some (astype float64 default_threshold) ->
          getitem2 res r c = getitem2 sample_stipple r c).
Proof.
  apply (create_masked_stipple_pointwise
           [sample_stipple; sample_mask] 0%nat 1%nat
           sample_stipple sample_mask default_threshold 2 2);
    reflexivity.
Defined.

(** C1, as the specification has it, fails for a float32 mask: the float32
    nearest to 0.7 is below 0.7, and with the threshold 0.7 a mask of that
    sample keeps the source sample, since the threshold is rounded to the
    same float32 before the comparison. *)
Lemma create_masked_stipple_float32_threshold :
  getitem2 sample_mask32 0 0 = Some (astype float32 (float_lit 7 10))
  /\ SFltb (float64_of_float32 (astype float32 (float_lit 7 10)))
        (float_lit 7 10) = true
  /\ exists res,
       create_masked_stipple 0%nat 1%nat (float_lit 7 10)
         [sample_dot; sample_mask32]
       = Some (Ok 2%nat, [sample_dot; sample_mask32] ++ [res])
       /\ getitem2 res 0 0 = Some (float_lit 1 5)
       /\ getitem2 res 0 0 <> Some (astype float64 one).
Proof.
  split; [reflexivity |]. split; [reflexivity |].
  eexists. split; [reflexivity |]. split; [reflexivity |].
  vm_compute. discriminate.
Qed.

(** C2.  The call raises exactly when the two shapes differ; what it raises
    then is a [ValueError] whose message holds both shapes, no array is
    allocated and no array is changed: the heap is the one before the call.
    Nothing else is ever raised. *)
Theorem create_masked_stipple_shape_error
    (h : heap) (stipple_img mask_img : loc) (s m : ndarray) (t : pyfloat) :
  h !! stipple_img = Some s -> h !! mask_img = Some m ->
  exists out h',
    create_masked_stipple stipple_img mask_img t h = Some (out, h')
    /\ ((exists e, out = Raise e) <-> shape s <> shape m)
    /\ (forall e, out = Raise e ->
          exn_cls e = ValueError
          /\ contains (str_of_shape (shape s)) (exn_msg e) = true
          /\ contains (str_of_shape (shape m)) (exn_msg e) = true
          /\ h' = h).
Proof.
  intros Hs Hm.
  destruct (decide (shape s = shape m)) as [Heq | Hne].
  - eexists _, _. split.
    + apply create_masked_stipple_returns; eassumption.
    + split.
      * split; [intros [e He]; discriminate | intros Hne; contradiction].
      * intros e He. discriminate.
  - eexists _, _. split.
    + apply create_masked_stipple_raises; eassumption.
    + split.
      * split; [intros _; exact Hne | intros _; eexists; reflexivity].
      * intros e He. injection He as <-. cbn [exn_cls exn_msg shape_error].
        repeat split.
        -- do 2 apply contains_skip. apply contains_here.
        -- do 5 apply contains_skip. apply contains_refl.
Qed.

Lemma create_masked_stipple_shape_error_witness :
  exists out h',
    create_masked_stipple 0%nat 1%nat default_threshold
      [sample_stipple; sample_wide] = Some (out, h')
    /\ ((exists e, out = Raise e) <-> shape sample_stipple <> shape sample_wide)
    /\ (forall e, out = Raise e ->
          exn_cls e = ValueError
          /\ contains (str_of_shape (shape sample_stipple)) (exn_msg e) = true
          /\ contains (str_of_shape (shape sample_wide)) (exn_msg e) = true
          /\ h' = [sample_stipple; sample_wide]).
Proof.
  apply (create_masked_stipple_shape_error
           [sample_stipple; sample_wide] 0%nat 1%nat
           sample_stipple sample_wide default_threshold);
    reflexivity.
Defined.

(** C6.  The call never changes its arguments: after it, the source and the
    mask (which may be one and the same array) hold the samples they held
    before, as does every other array of the heap, whether the call returned
    or raised. *)
Theorem create_masked_stipple_preserves_inputs
    (h : heap) (stipple_img mask_img : loc) (s m : ndarray) (t : pyfloat) :
  h !! stipple_img = Some s -> h !! mask_img = Some m ->
  exists out h',
    create_masked_stipple stipple_img mask_img t h = Some (out, h')
    /\ (shape s = shape m -> out = Ok (length h))
    /\ h' !! stipple_img = Some s
    /\ h' !! mask_img = Some m
    /\ (forall l a, h !! l = Some a -> h' !! l = Some a).
Proof.
  intros Hs Hm.
  destruct (decide (shape s = shape m)) as [Heq | Hne].
  - eexists _, _. split.
    + apply create_masked_stipple_returns; eassumption.
    + repeat split; auto using lookup_snoc_old.
  - eexists _, _. split.
    + apply create_masked_stipple_raises; eassumption.
    + repeat split; auto. intros Heq. contradiction.
Qed.

Lemma create_masked_stipple_preserves_inputs_witness :
  exists out h',
    create_masked_stipple 0%nat 0%nat default_threshold [sample_mask]
    = Some (out, h')
    /\ (shape sample_mask = shape sample_mask -> out = Ok 1%nat)
    /\ h' !! 0%nat = Some sample_mask
    /\ h' !! 0%nat = Some sample_mask
    /\ (forall l a, [sample_mask] !! l = Some a -> h' !! l = Some a).
Proof.
  apply (create_masked_stipple_preserves_inputs
           [sample_mask] 0%nat 0%nat sample_mask sample_mask default_threshold);
    reflexivity.
Defined.

Lemma masked_array_zero s m :
  shape s = shape m -> well_formed s -> well_formed m ->
  Forall (in_unit_interval (dtype_of m)) (data m) ->
  masked_array s m zero = s.
Proof.
  intros Hsh Ws Wm Hunit. destruct s as [dt sh xs].
  unfold masked_array. cbn [dtype_of shape data less bits] in *. f_equal.
  apply zip_with_all_false.
  - reflexivity.
  - apply Forall_forall. intros b Hb.
    apply list_elem_of_In, in_map_iff in Hb as (x & <- & Hx).
    apply list_elem_of_In in Hx.
    rewrite Forall_forall in Hunit. destruct (Hunit x Hx) as [H0 _].
    unfold less_scalar. rewrite astype_zero. apply SFleb_zero_not_ltb, H0.
  - rewrite length_map. unfold well_formed in *. cbn [data shape] in *.
    congruence.
Qed.

(** C7.  For equal-shaped [source] and [mask] with every mask sample between
    0 and 1: with the threshold 0.0 the result is the source, sample for
    sample; with the threshold 1.0 the result holds 1.0 exactly where the
    mask sample is below 1.0 and the source sample elsewhere. *)
Theorem create_masked_stipple_threshold_bounds
    (h : heap) (stipple_img mask_img : loc) (s m : ndarray) (H W : nat) :
  h !! stipple_img = Some s -> h !! mask_img = Some m ->
  shape s = [H; W] -> shape m = [H; W] ->
  well_formed s -> well_formed m ->
  Forall (in_unit_interval (dtype_of m)) (data m) ->
  create_masked_stipple stipple_img mask_img zero h
  = Some (Ok (length h), h ++ [s])
  /\ exists res,
       create_masked_stipple stipple_img mask_img one h
       = Some (Ok (length h), h ++ [res])
       /\ forall r c vs vm,
            getitem2 s r c = Some vs -> getitem2 m r c = Some vm ->
            getitem2 res r c
            = Some (if SFltb vm (astype (dtype_of m) one)
                    then astype (dtype_of s) one else vs).
Proof.
  intros Hs Hm Ss Sm Ws Wm Hunit.
  assert (Heq : shape s = shape m) by congruence.
  split.
  - rewrite (create_masked_stipple_returns h _ _ s m zero Hs Hm Heq).
    rewrite masked_array_zero by assumption. reflexivity.
  - exists (masked_array s m one). split.
    + apply create_masked_stipple_returns; assumption.
    + intros r c vs vm Gs Gm.
      apply (getitem2_masked s m one H W r c vs vm Ss Sm Gs Gm).
Qed.

Lemma create_masked_stipple_threshold_bounds_witness :
  create_masked_stipple 0%nat 1%nat zero [sample_stipple; sample_mask]
  = Some (Ok 2%nat, [sample_stipple; sample_mask] ++ [sample_stipple])
  /\ exists res,
       create_masked_stipple 0%nat 1%nat one [sample_stipple; sample_mask]
       = Some (Ok 2%nat, [sample_stipple; sample_mask] ++ [res])
       /\ forall r c vs vm,
            getitem2 sample_stipple r c = Some vs ->
            getitem2 sample_mask r c = Some vm ->
            getitem2 res r c
            = Some (if SFltb vm (astype float64 one)
                    then astype float64 one else vs).
Proof.
  apply (create_masked_stipple_threshold_bounds
           [sample_stipple; sample_mask] 0%nat 1%nat
           sample_stipple sample_mask 2 2); try reflexivity.
  repeat constructor.
Defined.

(** C10.  Masking is idempotent in the source: masking the result of a call
    again, with the same mask and threshold, gives an array equal to that
    result. *)
Theorem create_masked_stipple_idempotent
    (h : heap) (stipple_img mask_img : loc) (s m : ndarray) (t : pyfloat) :
  h !! stipple_img = Some s -> h !! mask_img = Some m ->
  shape s = shape m ->
  exists once h1 twice h2 res,
    create_masked_stipple stipple_img mask_img t h = Some (Ok once, h1)
    /\ h1 !! once = Some res
    /\ create_masked_stipple once mask_img t h1 = Some (Ok twice, h2)
    /\ h2 !! twice = Some res
    /\ once <> twice.
Proof.
  intros Hs Hm Heq.
  set (res := masked_array s m t).
  assert (Hres : (h ++ [res]) !! length h = Some res) by apply lookup_snoc_new.
  assert (Hm' : (h ++ [res]) !! mask_img = Some m)
    by (eapply lookup_snoc_old; exact Hm).
  assert (Hidem : masked_array res m t = res).
  { unfold res, masked_array. cbn [dtype_of shape data]. f_equal.
    apply zip_with_idem. intros [] x; reflexivity. }
  exists (length h), (h ++ [res]), (length (h ++ [res])),
         ((h ++ [res]) ++ [res]), res.
  split; [apply create_masked_stipple_returns; assumption |].
  split; [exact Hres |].
  split.
  - rewrite (create_masked_stipple_returns (h ++ [res]) _ _ res m t Hres Hm').
    + rewrite Hidem. reflexivity.
    + unfold res. rewrite masked_array_shape. exact Heq.
  - split; [apply lookup_snoc_new |].
    rewrite length_app. cbn [length]. lia.
Qed.

Lemma create_masked_stipple_idempotent_witness :
  exists once h1 twice h2 res,
    create_masked_stipple 0%nat 1%nat default_threshold
      [sample_stipple; sample_mask] = Some (Ok once, h1)
    /\ h1 !! once = Some res
    /\ create_masked_stipple once 1%nat default_threshold h1
       = Some (Ok twice, h2)
    /\ h2 !! twice = Some res
    /\ once <> twice.
Proof.
  apply (create_masked_stipple_idempotent
           [sample_stipple; sample_mask] 0%nat 1%nat
           sample_stipple sample_mask default_threshold);
    reflexivity.
Defined.

(** ** create_statistics_meme: the claims *)

Lemma panel_error_message (name : string) (sh img_shape : list nat) :
  exn_cls (panel_error name sh img_shape) = ValueError
  /\ contains (name +:+ "_img") (exn_msg (panel_error name sh img_shape)) = true
  /\ contains (str_of_shape sh) (exn_msg (panel_error name sh img_shape)) = true
  /\ contains (str_of_shape img_shape)
       (exn_msg (panel_error name sh img_shape)) = true.
Proof.
  cbn [exn_cls exn_msg panel_error]. repeat split.
  - apply contains_skip.
    replace (name +:+ "_img shape: " +:+ str_of_shape sh
             +:+ ", expected: " +:+ str_of_shape img_shape)
      with ((name +:+ "_img") +:+ " shape: " +:+ str_of_shape sh
            +:+ ", expected: " +:+ str_of_shape img_shape).
    + apply contains_here.
    + induction name as [|a name IH]; [reflexivity |].
      change (String a ((name +:+ "_img") +:+ " shape: " +:+ str_of_shape sh
                        +:+ ", expected: " +:+ str_of_shape img_shape)
              = String a (name +:+ "_img shape: " +:+ str_of_shape sh
                          +:+ ", expected: " +:+ str_of_shape img_shape)).
      f_equal. exact IH.
  - do 3 apply contains_skip. apply contains_here.
  - do 5 apply contains_skip. apply contains_refl.
Qed.

(** The loop raises at the first panel whose shape is not the expected one,
    and passes when there is none. *)
Lemma check_shapes_spec (images : list (string * ndarray)) (sh : list nat) :
  match check_shapes images sh with
  | Ok _ => Forall (fun p => shape (snd p) = sh) images
  | Raise e =>
      exists before name img after,
        images = before ++ (name, img) :: after
        /\ Forall (fun p => shape (snd p) = sh) before
        /\ shape img <> sh
        /\ e = panel_error name (shape img) sh
  end.
Proof.
  induction images as [|[name img] rest IH]; cbn [check_shapes].
  - constructor.
  - destruct (decide (shape img = sh)) as [Heq | Hne].
    + rewrite bool_decide_false by (intros N; exact (N Heq)).
      destruct (check_shapes rest sh) as [u | e].
      * constructor; assumption.
      * destruct IH as (before & n & i & after & -> & Hb & Hi & ->).
        exists ((name, img) :: before), n, i, after.
        repeat split; auto.
    + rewrite bool_decide_true by exact Hne.
      exists [], name, img, rest. repeat split; auto.
Qed.



(** ** Samples of the normalised canvas *)

Lemma normalize_sample_unit (b : byte) :
  in_unit_interval float32 (normalize_sample b).
Proof. destruct b; split; vm_compute; reflexivity. Qed.

(** A normalised sample is below 1.0 exactly when the 8-bit sample is not
    255. *)
Lemma normalize_sample_ink (b : byte) :
  SFltb (normalize_sample b) (astype float32 one) = negb (Byte.eqb b Byte.xff).
Proof. destruct b; vm_compute; reflexivity. Qed.

Lemma length_grid {A} (g : nat -> nat -> A) (w : nat) (rows : list nat) :
  length (flat_map (fun r => map (g r) (seq 0 w)) rows)
  = (length rows * w)%nat.
Proof.
  induction rows as [|r rows IH]; cbn [flat_map length]; [reflexivity |].
  rewrite length_app, length_map, length_seq, IH. lia.
Qed.

Lemma lookup_grid {A} (g : nat -> nat -> A) (w h start r c : nat) :
  (r < h)%nat -> (c < w)%nat ->
  flat_map (fun r => map (g r) (seq 0 w)) (seq start h) !! (r * w + c)%nat
  = Some (g (start + r)%nat c).
Proof.
  revert start r. induction h as [|h IH]; intros start r Hr Hc; [lia |].
  cbn [seq flat_map]. destruct r as [|r].
  - rewrite lookup_app_l by (rewrite length_map, length_seq; lia).
    rewrite lookup_map, lookup_seq_lt by lia.
    cbn. rewrite Nat.add_0_r. reflexivity.
  - rewrite lookup_app_r by (rewrite length_map, length_seq; lia).
    rewrite length_map, length_seq.
    replace (S r * w + c - w)%nat with (r * w + c)%nat by lia.
    rewrite IH by lia. f_equal. f_equal. lia.
Qed.

Section NormalizedArray.

Context {pil : Pillow}.
Variables (width height : Z) (pixels : Z -> Z -> byte).

Let img := Image width height pixels.

Lemma normalized_array_dtype : dtype_of (normalized_array img) = float32.
Proof. reflexivity. Qed.

Lemma normalized_array_shape :
  0 <= height -> 0 <= width ->
  map Z.of_nat (shape (normalized_array img)) = [height; width].
Proof.
  intros Hh Hw. cbn [normalized_array shape map img im_height im_width].
  rewrite !Z2Nat.id by assumption. reflexivity.
Qed.

Lemma normalized_array_well_formed : well_formed (normalized_array img).
Proof.
  unfold well_formed. cbn [normalized_array shape data numel foldr].
  rewrite length_grid, length_seq. lia.
Qed.

Lemma normalized_array_unit :
  Forall (in_unit_interval float32) (data (normalized_array img)).
Proof.
  apply Forall_forall. intros x Hx.
  apply list_elem_of_In in Hx. cbn [normalized_array data] in Hx.
  apply in_flat_map in Hx as (r & _ & Hx).
  apply in_map_iff in Hx as (c & <- & _).
  apply normalize_sample_unit.
Qed.

Lemma normalized_array_getitem (row col : nat) :
  (row < Z.to_nat height)%nat -> (col < Z.to_nat width)%nat ->
  getitem2 (normalized_array img) row col
  = Some (normalize_sample (pixels (Z.of_nat col) (Z.of_nat row))).
Proof.
  intros Hr Hc. unfold getitem2.
  cbn [normalized_array shape data img im_height im_width im_pixel].
  rewrite !bool_decide_true by assumption. cbn [andb].
  rewrite (lookup_grid
             (fun r c => normalize_sample (pixels (Z.of_nat c) (Z.of_nat r))))
    by assumption.
  reflexivity.
Qed.

(** The raster has ink exactly when the canvas has a sample that is not
    255. *)
Lemma normalized_array_ink :
  has_ink (normalized_array img) = true
  <-> exists row col,
        (row < Z.to_nat height)%nat /\ (col < Z.to_nat width)%nat
        /\ pixels (Z.of_nat col) (Z.of_nat row) <> Byte.xff.
Proof.
  unfold has_ink. rewrite existsb_exists.
  cbn [normalized_array dtype_of data img im_height im_width im_pixel].
  split.
  - intros (x & Hx & Hlt).
    apply in_flat_map in Hx as (r & Hr & Hx).
    apply in_map_iff in Hx as (c & <- & Hc).
    apply in_seq in Hr, Hc.
    rewrite normalize_sample_ink in Hlt.
    exists r, c. repeat split; try lia.
    intros Heq. rewrite Heq in Hlt. discriminate.
  - intros (r & c & Hr & Hc & Hne).
    exists (normalize_sample (pixels (Z.of_nat c) (Z.of_nat r))). split.
    + apply in_flat_map. exists r. split; [apply in_seq; lia |].
      apply in_map_iff. exists c. split; [reflexivity | apply in_seq; lia].
    + rewrite normalize_sample_ink.
      destruct (Byte.eqb _ _) eqn:E; [| reflexivity].
      apply Byte.byte_dec_bl in E. contradiction.
Qed.

End NormalizedArray.

(** ** Font resolution *)

Section FontResolution.

Context {pil : Pillow}.

Lemma font_paths_truth (system p : string) :
  In p (font_paths system) -> str_truth p = true.
Proof.
  unfold font_paths.
  destruct (String.eqb system "Windows");
    [| destruct (String.eqb system "Darwin")];
    cbn [In windows_fonts darwin_fonts linux_fonts];
    intros Hin; repeat (destruct Hin as [<- | Hin]; [reflexivity |]);
    destruct Hin.
Qed.

(** The loop returns the first path of the list that exists. *)
Lemma first_existing_Some (paths : list string) (p : string) :
  first_existing paths = Some p
  <-> exists before after,
        paths = before ++ p :: after
        /\ Forall (fun q => path_exists q = false) before
        /\ path_exists p = true.
Proof.
  induction paths as [|q paths IH]; cbn [first_existing].
  - split; [discriminate |].
    intros (before & after & Heq & _). destruct before; discriminate.
  - destruct (path_exists q) eqn:Eq.
    + split.
      * intros [= <-]. exists [], paths. repeat split; auto.
      * intros (before & after & Heq & Hb & Hp).
        destruct before as [|q' before]; cbn in Heq.
        -- congruence.
        -- injection Heq as <- _. apply Forall_cons in Hb as [Hq _]. congruence.
    + rewrite IH. split.
      * intros (before & after & -> & Hb & Hp).
        exists (q :: before), after. repeat split; auto.
      * intros (before & after & Heq & Hb & Hp).
        destruct before as [|q' before]; cbn in Heq.
        -- injection Heq as -> _. congruence.
        -- injection Heq as <- ->. apply Forall_cons in Hb as [_ Hb].
           exists before, after. repeat split; auto.
Qed.

Lemma first_existing_None (paths : list string) :
  first_existing paths = None
  <-> Forall (fun q => path_exists q = false) paths.
Proof.
  induction paths as [|q paths IH]; cbn [first_existing].
  - split; auto.
  - destruct (path_exists q) eqn:Eq.
    + split; [discriminate |]. intros Hall.
      apply Forall_cons in Hall as [Hq _]. congruence.
    + rewrite IH. split; [auto | intros Hall].
      apply Forall_cons in Hall as [_ Hall]. exact Hall.
Qed.

Lemma first_existing_In (paths : list string) (p : string) :
  first_existing paths = Some p -> In p paths.
Proof.
  intros Hp. apply first_existing_Some in Hp as (before & after & -> & _).
  apply in_or_app. right. left. reflexivity.
Qed.

(** Only the path that [_find_font_path] returns is ever loaded. *)
Lemma load_bold_font_eq (font_size : Z) :
  load_bold_font font_size
  = match _find_font_path with
    | Some font_path =>
        match truetype font_path font_size with
        | Ok f => Ok (Some f)
        | Raise e =>
            if exn_class_eqb (exn_cls e) OSError then Ok None else Raise e
        end
    | None => Ok None
    end.
Proof.
  unfold load_bold_font.
  destruct _find_font_path as [p|] eqn:Ep; [| reflexivity].
  rewrite (font_paths_truth platform_system p)
    by (apply first_existing_In; exact Ep).
  unfold try_except, Py.bind.
  destruct (truetype p font_size) as [f | e]; [reflexivity |].
  cbn [existsb]. rewrite orb_false_r. reflexivity.
Qed.

Lemma resolve_font_eq (font_size : Z) :
  resolve_font font_size
  = match _find_font_path with
    | Some font_path =>
        match truetype font_path font_size with
        | Ok f => Ok (Some f)
        | Raise e =>
            if exn_class_eqb (exn_cls e) OSError
            then Ok fallback_font else Raise e
        end
    | None => Ok fallback_font
    end.
Proof.
  unfold resolve_font. rewrite load_bold_font_eq.
  unfold fallback_font, try_except_all, Py.bind.
  destruct _find_font_path as [p|].
  - destruct (truetype p font_size) as [f | e]; [reflexivity |].
    destruct (exn_class_eqb (exn_cls e) OSError); [| reflexivity].
    destruct load_default; reflexivity.
  - destruct load_default; reflexivity.
Qed.

End FontResolution.

(** C4, as the code has it.  The candidates are probed in their listed order
    for existence only, and [_find_font_path] is the first of them that
    exists.  That one path is loaded at the pixel size: it is the active font
    when it loads; when loading it fails with an [OSError] no later candidate
    is tried and the active font is PIL's default font (no font when that
    does not load either), as it is when no candidate exists. *)
Theorem font_resolution_first_existing {pil : Pillow} (font_size : Z) :
  (forall p,
     _find_font_path = Some p
     <-> exists before after,
           font_paths platform_system = before ++ p :: after
           /\ Forall (fun q => path_exists q = false) before
           /\ path_exists p = true)
  /\ (_find_font_path = None
      <-> Forall (fun q => path_exists q = false) (font_paths platform_system))
  /\ resolve_font font_size
     = match _find_font_path with
       | Some font_path =>
           match truetype font_path font_size with
           | Ok f => Ok (Some f)
           | Raise e =>
               if exn_class_eqb (exn_cls e) OSError
               then Ok fallback_font else Raise e
           end
       | None => Ok fallback_font
       end.
Proof.
  split; [| split].
  - intros p. apply first_existing_Some.
  - apply first_existing_None.
  - apply resolve_font_eq.
Qed.

(** C4, as the specification has it, fails: where the first candidate exists
    and does not load while a later one exists and loads, the code takes the
    default font and the specification the later candidate. *)
Lemma font_resolution_skips_later_candidates :
  path_exists (Pillow := linux_broken_first) dejavu_bold = true
  /\ truetype (Pillow := linux_broken_first) dejavu_bold 9
     = Raise (Exn OSError "cannot open resource")
  /\ path_exists (Pillow := linux_broken_first) noto_bold = true
  /\ truetype (Pillow := linux_broken_first) noto_bold 9
     = Ok {| cell_w := 4; cell_h := 9 |}
  /\ spec_active_font (H := linux_broken_first) 9
     = Some {| cell_w := 4; cell_h := 9 |}
  /\ resolve_font (pil := linux_broken_first) 9 = Ok (Some default_box)
  /\ resolve_font (pil := linux_broken_first) 9
     <> Ok (spec_active_font (H := linux_broken_first) 9).
Proof.
  repeat split; try reflexivity.
  vm_compute. discriminate.
Qed.

(** ** create_block_letter_s: the steps of a call *)

Section BlockLetter.

Context {pil : Pillow}.
Variables (height width : Z) (letter : string) (font_size_ratio : pyfloat).

(** The canvas before the letter is drawn. *)
Let canvas : image := blank_canvas width height.

(** A call that returns went through every step, and its result is the
    drawn canvas, normalised. *)
Lemma create_block_letter_s_Ok (r : ndarray) :
  create_block_letter_s height width letter font_size_ratio = Ok r ->
  exists font_size fnt text_width text_height bbox_y_offset xy pixels,
    Image_new_check width height = None
    /\ compute_font_size height width font_size_ratio = Ok font_size
    /\ resolve_font font_size = Ok fnt
    /\ measure_text canvas fnt font_size letter
       = Ok (text_width, text_height, bbox_y_offset)
    /\ center_text height width text_width text_height bbox_y_offset = Ok xy
    /\ draw_text canvas xy letter Byte.x00 fnt = Ok pixels
    /\ r = normalized_array (Image width height pixels).
Proof.
  unfold create_block_letter_s, Image_new, Py.bind.
  destruct (Image_new_check width height) as [e|] eqn:En; [discriminate |].
  destruct (compute_font_size height width font_size_ratio) as [fs|e] eqn:Ef;
    [| discriminate].
  destruct (resolve_font fs) as [fnt|e] eqn:Er; [| discriminate].
  change (Image width height (fun _ _ => Byte.xff)) with canvas.
  destruct (measure_text canvas fnt fs letter) as [[[tw th] off]|e] eqn:Em;
    [| discriminate].
  destruct (center_text height width tw th off) as [xy|e] eqn:Ec;
    [| discriminate].
  cbn [im_width im_height]. change (Image width height (fun _ _ => Byte.xff)) with canvas.
  destruct (draw_text canvas xy letter Byte.x00 fnt) as [px|e] eqn:Ed;
    [| discriminate].
  intros [= <-]. exists fs, fnt, tw, th, off, xy, px.
  repeat split; assumption.
Qed.

(** When every step returns, so does the call. *)
Lemma create_block_letter_s_steps
    font_size fnt text_width text_height bbox_y_offset xy pixels :
  Image_new_check width height = None ->
  compute_font_size height width font_size_ratio = Ok font_size ->
  resolve_font font_size = Ok fnt ->
  measure_text canvas fnt font_size letter
  = Ok (text_width, text_height, bbox_y_offset) ->
  center_text height width text_width text_height bbox_y_offset = Ok xy ->
  draw_text canvas xy letter Byte.x00 fnt = Ok pixels ->
  create_block_letter_s height width letter font_size_ratio
  = Ok (normalized_array (Image width height pixels)).
Proof.
  intros Hn Hf Hr Hm Hc Hd.
  unfold create_block_letter_s, Image_new, Py.bind.
  rewrite Hn, Hf, Hr. change (Image width height (fun _ _ => Byte.xff)) with canvas. rewrite Hm, Hc.
  cbn [im_width im_height]. change (Image width height (fun _ _ => Byte.xff)) with canvas. rewrite Hd. reflexivity.
Qed.

(** A call that raises raises what one of its steps raised. *)
Lemma create_block_letter_s_Raise (e : exn) :
  create_block_letter_s height width letter font_size_ratio = Raise e ->
  Image_new_check width height = Some e
  \/ compute_font_size height width font_size_ratio = Raise e
  \/ (exists font_size, resolve_font font_size = Raise e)
  \/ (exists fnt font_size, measure_text canvas fnt font_size letter = Raise e)
  \/ (exists text_width text_height bbox_y_offset,
        center_text height width text_width text_height bbox_y_offset
        = Raise e)
  \/ (exists xy fnt, draw_text canvas xy letter Byte.x00 fnt = Raise e).
Proof.
  unfold create_block_letter_s, Image_new, Py.bind.
  destruct (Image_new_check width height) as [e0|];
    [intros [= <-]; auto |].
  destruct (compute_font_size height width font_size_ratio) as [fs|e0];
    [| intros [= <-]; auto].
  destruct (resolve_font fs) as [fnt|e0] eqn:Er;
    [| intros [= <-]; eauto 6].
  change (Image width height (fun _ _ => Byte.xff)) with canvas.
  destruct (measure_text canvas fnt fs letter) as [[[tw th] off]|e0] eqn:Em;
    [| intros [= <-]; eauto 8].
  destruct (center_text height width tw th off) as [xy|e0] eqn:Ec;
    [| intros [= <-]; eauto 10].
  cbn [im_width im_height]. change (Image width height (fun _ _ => Byte.xff)) with canvas.
  destruct (draw_text canvas xy letter Byte.x00 fnt) as [px|e0] eqn:Ed;
    [discriminate | intros [= <-]; eauto 12].
Qed.

(** Font resolution raises only what [truetype] raised on the path that was
    found, and never an [OSError]. *)
Lemma resolve_font_Raise (font_size : Z) (e : exn) :
  resolve_font font_size = Raise e ->
  exists font_path,
    _find_font_path = Some font_path
    /\ truetype font_path font_size = Raise e
    /\ exn_cls e <> OSError.
Proof.
  rewrite resolve_font_eq.
  destruct _find_font_path as [p|]; [| discriminate].
  destruct (truetype p font_size) as [f|e0] eqn:Et; [discriminate |].
  destruct (exn_class_eqb (exn_cls e0) OSError) eqn:Ec; [discriminate |].
  intros [= <-]. exists p. repeat split; auto.
  intros Heq. rewrite Heq in Ec. discriminate.
Qed.

End BlockLetter.

(** ** create_block_letter_s: the claims *)







(** On that platform the call does return, and the raster has ink. *)
Lemma create_block_letter_s_runs :
  exists r,
    create_block_letter_s (pil := linux_dejavu) 12 10 "S"
      default_font_size_ratio = Ok r
    /\ shape r = [12; 10]%nat
    /\ has_ink r = true.
Proof. eexists. split; [vm_compute; reflexivity | split; reflexivity]. Qed.

Section WithoutFonts.

Context {pil : Pillow}.
Hypothesis Hnone : no_font_resolves.

(** Without a candidate that resolves, the font is the fallback font. *)
Lemma resolve_font_fallback (font_size : Z) :
  resolve_font font_size = Ok fallback_font.
Proof.
  rewrite resolve_font_eq.
  destruct _find_font_path as [p|] eqn:Ep; [| reflexivity].
  pose proof (first_existing_In _ _ Ep) as Hin.
  apply first_existing_Some in Ep as (_ & _ & _ & _ & Hex).
  destruct (Hnone p Hin) as [Habs | Hload]; [congruence |].
  destruct (Hload font_size) as (e & -> & ->). reflexivity.
Qed.

End WithoutFonts.


Lemma linux_no_fonts_none : no_font_resolves (H := linux_no_fonts).
Proof. intros p _. left. reflexivity. Defined.



(** ** The scenarios of the specification *)

(** A source of 10 by 10 and a mask of 10 by 12: the message of the error
    names both shapes. *)
Example shape_error_10x10_10x12 :
  exn_msg (shape_error [10; 10]%nat [10; 12]%nat)
  = "Images must have the same shape. stipple_img shape: (10, 10), mask_img shape: (10, 12)".
Proof. reflexivity. Qed.

(** The shape of a one-dimensional array is written with a comma. *)
Example str_of_shape_examples :
  str_of_shape [] = "()" /\ str_of_shape [3]%nat = "(3,)"
  /\ str_of_shape [10; 12]%nat = "(10, 12)".
Proof. repeat split; reflexivity. Qed.

(** With the default threshold 0.5 the mask samples 0.49 and 0.0 erase the
    source and the samples 0.5 and 1.0 keep it. *)
Example masked_array_sample :
  data (masked_array sample_stipple sample_mask default_threshold)
  = [float_lit 1 5; one; one; one].
Proof. reflexivity. Qed.

(** The default font size of a canvas of 100 by 100 is 90 pixels, and that
    of a canvas of 1 by 1 is 0 pixels. *)
Example compute_font_size_examples :
  compute_font_size 100 100 default_font_size_ratio = Ok 90
  /\ compute_font_size 1 1 default_font_size_ratio = Ok 0.
Proof. split; reflexivity. Qed.

(** On equal shapes the meme is laid out: a figure, a grid, four panels with
    their labels, and the file is saved. *)
Example create_statistics_meme_runs :
  create_statistics_meme (mpl := quiet_matplotlib)
    sample_stipple sample_mask sample_mask sample_stipple
    "meme.png" 150 "white" []
  = (Ok tt,
     [ Figure "white" 150; GridSpec 1 4;
       AddSubplot 0; Imshow 0 sample_stipple; AxisOff 0; AxText 0 "Reality";
       AddSubplot 1; Imshow 1 sample_mask; AxisOff 1; AxText 1 "Your Model";
       AddSubplot 2; Imshow 2 sample_mask; AxisOff 2;
       AxText 2 "Selection Bias";
       AddSubplot 3; Imshow 3 sample_stipple; AxisOff 3; AxText 3 "Estimate";
       Savefig "meme.png" 150 "white"; Close ]).
Proof. reflexivity. Qed.

(* ================================================================== *)
(** * Further properties of the code *)

(** ** create_masked_stipple on arrays of any shape *)

Lemma masked_array_choice s m t i v :
  data (masked_array s m t) !! i = Some v ->
  v = astype (dtype_of s) one \/ data s !! i = Some v.
Proof.
  cbn [data masked_array]. rewrite lookup_zip_with.
  destruct (bits (less m t) !! i) as [b|]; [| discriminate].
  destruct (data s !! i) as [x|]; [| discriminate].
  cbn. intros [= <-]. destruct b; auto.
Qed.

Lemma one_in_unit_interval dt : in_unit_interval dt (astype dt one).
Proof. destruct dt; split; reflexivity. Qed.

(** X1.  The call does not ask for two dimensions.  For a source and a mask
    of one shape, of any number of dimensions, it returns a reference that
    is neither of its arguments, to an array of the dtype and the shape of
    the source (whatever the dtype of the mask); the sample at every
    position is 1.0 where the mask sample is below the threshold converted
    to the dtype of the mask (the threshold itself for a float64 mask, its
    nearest float32 for a float32 mask) and the source sample elsewhere. *)
Theorem create_masked_stipple_any_shape
    (h : heap) (stipple_img mask_img : loc) (s m : ndarray) (t : pyfloat) :
  h !! stipple_img = Some s -> h !! mask_img = Some m ->
  shape s = shape m -> well_formed s -> well_formed m ->
  exists masked_stipple res,
    create_masked_stipple stipple_img mask_img t h
    = Some (Ok masked_stipple, h ++ [res])
    /\ masked_stipple <> stipple_img /\ masked_stipple <> mask_img
    /\ (h ++ [res]) !! masked_stipple = Some res
    /\ dtype_of res = dtype_of s /\ shape res = shape s /\ well_formed res
    /\ forall i, (i < numel (shape s))%nat ->
         exists vs vm,
           data s !! i = Some vs /\ data m !! i = Some vm
           /\ data res !! i
              = Some (if SFltb vm
                           (match dtype_of m with
                            | float64 => t
                            | float32 =>
                                match t with
                                | S754_finite sg mt e =>
                                    binary_round prec32 emax32 sg mt e
                                | _ => t
                                end
                            end)
                      then match dtype_of s with
                           | float64 => SFone prec64 emax64
                           | float32 => SFone prec32 emax32
                           end
                      else vs).
Proof.
  intros Hs Hm Heq Ws Wm.
  exists (length h), (masked_array s m t).
  split; [apply create_masked_stipple_returns; assumption |].
  split; [apply lookup_lt_Some in Hs; lia |].
  split; [apply lookup_lt_Some in Hm; lia |].
  split; [apply lookup_snoc_new |].
  split; [reflexivity |]. split; [reflexivity |].
  split; [apply masked_array_well_formed; assumption |].
  intros i Hi.
  destruct (lookup_lt_is_Some_2 (data s) i) as [vs Hvs];
    [unfold well_formed in Ws; lia |].
  destruct (lookup_lt_is_Some_2 (data m) i) as [vm Hvm];
    [unfold well_formed in Wm; rewrite Wm, <- Heq; lia |].
  exists vs, vm. repeat split; try assumption.
  rewrite (masked_array_lookup s m t i vs vm Hvs Hvm).
  unfold less_scalar. destruct (dtype_of s), (dtype_of m), t; reflexivity.
Qed.

Lemma create_masked_stipple_any_shape_witness :
  exists masked_stipple res,
    create_masked_stipple 0%nat 1%nat default_threshold
      [sample_cube; sample_cube_mask]
    = Some (Ok masked_stipple, [sample_cube; sample_cube_mask] ++ [res])
    /\ masked_stipple <> 0%nat /\ masked_stipple <> 1%nat
    /\ ([sample_cube; sample_cube_mask] ++ [res]) !! masked_stipple = Some res
    /\ dtype_of res = dtype_of sample_cube
    /\ shape res = shape sample_cube /\ well_formed res
    /\ forall i, (i < numel (shape sample_cube))%nat ->
         exists vs vm,
           data sample_cube !! i = Some vs
           /\ data sample_cube_mask !! i = Some vm
           /\ data res !! i
              = Some (if SFltb vm
                           (binary_round prec32 emax32 false
                              4503599627370496 (-53))
                      then SFone prec64 emax64 else vs).
Proof.
  apply (create_masked_stipple_any_shape
           [sample_cube; sample_cube_mask] 0%nat 1%nat
           sample_cube sample_cube_mask default_threshold);
    reflexivity.
Defined.

(** X2.  Masking never adds ink.  Every sample of the result is the source
    sample at that position or 1.0, and a source whose samples lie between
    0 and 1 gives a result whose samples lie between 0 and 1, whatever the
    mask holds. *)
Theorem create_masked_stipple_never_adds_ink
    (h : heap) (stipple_img mask_img : loc) (s m : ndarray) (t : pyfloat) :
  h !! stipple_img = Some s -> h !! mask_img = Some m ->
  shape s = shape m ->
  exists res,
    create_masked_stipple stipple_img mask_img t h
    = Some (Ok (length h), h ++ [res])
    /\ (forall i v, data res !! i = Some v ->
          v = astype (dtype_of s) one \/ data s !! i = Some v)
    /\ (Forall (in_unit_interval (dtype_of s)) (data s) ->
        Forall (in_unit_interval (dtype_of res)) (data res)).
Proof.
  intros Hs Hm Heq. exists (masked_array s m t).
  split; [apply create_masked_stipple_returns; assumption |].
  split; [apply masked_array_choice |].
  intros Hunit. apply Forall_lookup. intros i v Hv.
  rewrite masked_array_dtype.
  destruct (masked_array_choice s m t i v Hv) as [-> | Hsv].
  - apply one_in_unit_interval.
  - eapply Forall_lookup in Hunit; eassumption.
Qed.

Lemma create_masked_stipple_never_adds_ink_witness :
  exists res,
    create_masked_stipple 0%nat 1%nat default_threshold
      [sample_stipple; sample_mask2]
    = Some (Ok 2%nat, [sample_stipple; sample_mask2] ++ [res])
    /\ (forall i v, data res !! i = Some v ->
          v = astype (dtype_of sample_stipple) one
          \/ data sample_stipple !! i = Some v)
    /\ (Forall (in_unit_interval (dtype_of sample_stipple))
          (data sample_stipple) ->
        Forall (in_unit_interval (dtype_of res)) (data res)).
Proof.
  apply (create_masked_stipple_never_adds_ink
           [sample_stipple; sample_mask2] 0%nat 1%nat
           sample_stipple sample_mask2 default_threshold);
    reflexivity.
Defined.

Lemma SFltb_nan_r x : SFltb x S754_nan = false.
Proof. destruct x; reflexivity. Qed.

Lemma astype_nan dt : astype dt S754_nan = S754_nan.
Proof. destruct dt; reflexivity. Qed.

Lemma masked_array_nan s m :
  shape s = shape m -> well_formed s -> well_formed m ->
  masked_array s m S754_nan = s.
Proof.
  intros Heq Ws Wm. destruct s as [dt sh xs].
  unfold masked_array. cbn [dtype_of shape data less bits] in *. f_equal.
  apply zip_with_all_false.
  - reflexivity.
  - apply Forall_forall. intros b Hb.
    apply list_elem_of_In, in_map_iff in Hb as (x & <- & _).
    unfold less_scalar. rewrite astype_nan. apply SFltb_nan_r.
  - rewrite length_map. unfold well_formed in *. cbn [data shape] in *.
    congruence.
Qed.

(** X3.  Not-a-number never erases.  With a threshold that is not a number
    the result is the source, sample for sample; and with any threshold a
    mask sample that is not a number keeps the source sample. *)
Theorem create_masked_stipple_nan
    (h : heap) (stipple_img mask_img : loc) (s m : ndarray) (t : pyfloat) :
  h !! stipple_img = Some s -> h !! mask_img = Some m ->
  shape s = shape m -> well_formed s -> well_formed m ->
  create_masked_stipple stipple_img mask_img S754_nan h
  = Some (Ok (length h), h ++ [s])
  /\ exists res,
       create_masked_stipple stipple_img mask_img t h
       = Some (Ok (length h), h ++ [res])
       /\ forall i, data m !! i = Some S754_nan ->
                    data res !! i = data s !! i.
Proof.
  intros Hs Hm Heq Ws Wm. split.
  - rewrite (create_masked_stipple_returns h _ _ s m S754_nan Hs Hm Heq).
    rewrite masked_array_nan by assumption. reflexivity.
  - exists (masked_array s m t).
    split; [apply create_masked_stipple_returns; assumption |].
    intros i Hi.
    destruct (lookup_lt_is_Some_2 (data s) i) as [vs Hvs].
    + apply lookup_lt_Some in Hi. unfold well_formed in *.
      rewrite Ws, Heq, <- Wm. exact Hi.
    + rewrite (masked_array_lookup s m t i vs _ Hvs Hi), Hvs.
      reflexivity.
Qed.

Lemma create_masked_stipple_nan_witness :
  create_masked_stipple 0%nat 1%nat S754_nan [sample_stipple; sample_mask2]
  = Some (Ok 2%nat, [sample_stipple; sample_mask2] ++ [sample_stipple])
  /\ exists res,
       create_masked_stipple 0%nat 1%nat default_threshold
         [sample_stipple; sample_mask2]
       = Some (Ok 2%nat, [sample_stipple; sample_mask2] ++ [res])
       /\ forall i, data sample_mask2 !! i = Some S754_nan ->
                    data res !! i = data sample_stipple !! i.
Proof.
  apply (create_masked_stipple_nan
           [sample_stipple; sample_mask2] 0%nat 1%nat
           sample_stipple sample_mask2 default_threshold);
    reflexivity.
Defined.

(** ** create_masked_stipple: how calls compose *)

Lemma zip_with_mask_comm {A} (c : A) (bs1 bs2 : list bool) (xs : list A) :
  zip_with (fun (b : bool) x => if b then c else x) bs2
    (zip_with (fun (b : bool) x => if b then c else x) bs1 xs)
  = zip_with (fun (b : bool) x => if b then c else x) bs1
      (zip_with (fun (b : bool) x => if b then c else x) bs2 xs).
Proof.
  revert bs1 bs2.
  induction xs as [|x xs IH]; intros [|b1 bs1] [|b2 bs2]; cbn;
    try reflexivity.
  rewrite IH. destruct b1, b2; reflexivity.
Qed.

Lemma masked_array_comm s m1 m2 t1 t2 :
  masked_array (masked_array s m1 t1) m2 t2
  = masked_array (masked_array s m2 t2) m1 t1.
Proof.
  unfold masked_array. cbn [dtype_of shape data]. f_equal.
  apply zip_with_mask_comm.
Qed.

(** X4.  Two masks can be applied in either order.  Masking the source with
    one mask and the result with another gives the same array as masking
    with the other mask first. *)
Theorem create_masked_stipple_masks_commute
    (h : heap) (stipple_img mask1 mask2 : loc) (s m1 m2 : ndarray)
    (t1 t2 : pyfloat) :
  h !! stipple_img = Some s ->
  h !! mask1 = Some m1 -> h !! mask2 = Some m2 ->
  shape s = shape m1 -> shape s = shape m2 ->
  exists res,
    (exists a ha b hb,
       create_masked_stipple stipple_img mask1 t1 h = Some (Ok a, ha)
       /\ create_masked_stipple a mask2 t2 ha = Some (Ok b, hb)
       /\ hb !! b = Some res)
    /\ (exists a ha b hb,
          create_masked_stipple stipple_img mask2 t2 h = Some (Ok a, ha)
          /\ create_masked_stipple a mask1 t1 ha = Some (Ok b, hb)
          /\ hb !! b = Some res).
Proof.
  intros Hs H1 H2 E1 E2.
  exists (masked_array (masked_array s m1 t1) m2 t2). split.
  - eexists _, _, _, _. split; [| split].
    + apply create_masked_stipple_returns; eassumption.
    + apply create_masked_stipple_returns.
      * apply lookup_snoc_new.
      * eapply lookup_snoc_old; exact H2.
      * rewrite masked_array_shape. exact E2.
    + apply lookup_snoc_new.
  - rewrite masked_array_comm.
    eexists _, _, _, _. split; [| split].
    + apply create_masked_stipple_returns; eassumption.
    + apply create_masked_stipple_returns.
      * apply lookup_snoc_new.
      * eapply lookup_snoc_old; exact H1.
      * rewrite masked_array_shape. exact E1.
    + apply lookup_snoc_new.
Qed.

Lemma create_masked_stipple_masks_commute_witness :
  exists res,
    (exists a ha b hb,
       create_masked_stipple 0%nat 1%nat default_threshold
         [sample_stipple; sample_mask; sample_mask2] = Some (Ok a, ha)
       /\ create_masked_stipple a 2%nat one ha = Some (Ok b, hb)
       /\ hb !! b = Some res)
    /\ (exists a ha b hb,
          create_masked_stipple 0%nat 2%nat one
            [sample_stipple; sample_mask; sample_mask2] = Some (Ok a, ha)
          /\ create_masked_stipple a 1%nat default_threshold ha
             = Some (Ok b, hb)
          /\ hb !! b = Some res).
Proof.
  apply (create_masked_stipple_masks_commute
           [sample_stipple; sample_mask; sample_mask2] 0%nat 1%nat 2%nat
           sample_stipple sample_mask sample_mask2 default_threshold one);
    reflexivity.
Defined.

(** The order of the floats: below [a] and [a] at most [b] is below [b]. *)
Lemma SFltb_leb_trans x a b :
  SFltb x a = true -> SFleb a b = true -> SFltb x b = true.
Proof.
  unfold SFltb, SFleb, SFcompare.
  destruct x as [sx|sx| |sx mx ex], a as [sa|sa| |sa ma ea],
    b as [sb|sb| |sb mb eb];
    try destruct sx; try destruct sa; try destruct sb;
    try discriminate; try reflexivity;
    change (Pos.compare_cont Eq) with Pos.compare;
    repeat match goal with
           | |- context [Z.compare ?p ?q] => destruct (Z.compare_spec p q)
           | |- context [Pos.compare ?p ?q] => destruct (Pos.compare_spec p q)
           end; cbn; try discriminate; try reflexivity; intros; exfalso; lia.
Qed.

Lemma zip_with_mask_absorb {A B} (c : A) (p1 p2 : B -> bool)
    (ms : list B) (xs : list A) :
  (forall x, p1 x = true -> p2 x = true) ->
  zip_with (fun (b : bool) x => if b then c else x) (map p2 ms)
    (zip_with (fun (b : bool) x => if b then c else x) (map p1 ms) xs)
  = zip_with (fun (b : bool) x => if b then c else x) (map p2 ms) xs.
Proof.
  intros Himp. revert xs.
  induction ms as [|v ms IH]; intros [|x xs]; cbn; try reflexivity.
  rewrite IH. f_equal.
  destruct (p1 v) eqn:E1; [rewrite (Himp v E1) |]; reflexivity.
Qed.

(** X5.  A higher threshold absorbs a lower one.  For a float64 mask and
    thresholds [t1 <= t2], masking with [t1] and then masking the result
    with [t2] gives the array that masking the source with [t2] alone
    gives: raising the threshold only erases more. *)
Theorem create_masked_stipple_threshold_absorbs
    (h : heap) (stipple_img mask_img : loc) (s m : ndarray)
    (t1 t2 : pyfloat) :
  h !! stipple_img = Some s -> h !! mask_img = Some m ->
  shape s = shape m -> dtype_of m = float64 ->
  SFleb t1 t2 = true ->
  exists res,
    (exists a ha b hb,
       create_masked_stipple stipple_img mask_img t1 h = Some (Ok a, ha)
       /\ create_masked_stipple a mask_img t2 ha = Some (Ok b, hb)
       /\ hb !! b = Some res)
    /\ create_masked_stipple stipple_img mask_img t2 h
       = Some (Ok (length h), h ++ [res]).
Proof.
  intros Hs Hm Heq Hdt Hle.
  exists (masked_array s m t2). split.
  - eexists _, _, _, _. split; [| split].
    + apply create_masked_stipple_returns; eassumption.
    + apply create_masked_stipple_returns.
      * apply lookup_snoc_new.
      * eapply lookup_snoc_old; exact Hm.
      * rewrite masked_array_shape. exact Heq.
    + rewrite lookup_snoc_new. f_equal.
      unfold masked_array. cbn [dtype_of shape data less bits]. f_equal.
      apply zip_with_mask_absorb.
      intros x Hx. unfold less_scalar in *. rewrite Hdt in *.
      cbn [astype] in *. eapply SFltb_leb_trans; eassumption.
  - apply create_masked_stipple_returns; assumption.
Qed.

Lemma create_masked_stipple_threshold_absorbs_witness :
  exists res,
    (exists a ha b hb,
       create_masked_stipple 0%nat 1%nat default_threshold
         [sample_stipple; sample_mask] = Some (Ok a, ha)
       /\ create_masked_stipple a 1%nat one ha = Some (Ok b, hb)
       /\ hb !! b = Some res)
    /\ create_masked_stipple 0%nat 1%nat one [sample_stipple; sample_mask]
       = Some (Ok 2%nat, [sample_stipple; sample_mask] ++ [res]).
Proof.
  apply (create_masked_stipple_threshold_absorbs
           [sample_stipple; sample_mask] 0%nat 1%nat
           sample_stipple sample_mask default_threshold one);
    reflexivity.
Defined.

(** ** create_block_letter_s: the samples of the raster *)

Lemma all_bytes_lookup (b : byte) :
  all_bytes !! N.to_nat (Byte.to_N b) = Some b.
Proof. destruct b; reflexivity. Qed.

Lemma increasing_lookup (vs : list spec_float) (i j : nat) (x y : spec_float) :
  increasing vs = true -> (i < j)%nat ->
  vs !! i = Some x -> vs !! j = Some y -> SFltb x y = true.
Proof.
  revert i j. induction vs as [|v vs IH]; intros i j Hinc Hij Hx Hy.
  - discriminate.
  - cbn [increasing] in Hinc. apply andb_prop in Hinc as [Hv Hrest].
    destruct j as [|j]; [lia |]. cbn in Hy. destruct i as [|i].
    + injection Hx as <-. rewrite forallb_forall in Hv.
      apply Hv, list_elem_of_In. eapply list_elem_of_lookup_2. exact Hy.
    + cbn in Hx. apply (IH i j); auto. lia.
Qed.

Lemma normalized_levels_increasing :
  increasing (map normalize_sample all_bytes) = true.
Proof. vm_compute. reflexivity. Qed.

(** X6.  Normalisation keeps the grey levels apart and in order: a darker
    8-bit sample gives a strictly smaller float32 sample, the sample 0
    gives exactly 0.0 and the sample 255 gives exactly 1.0. *)
Theorem normalize_sample_increasing (a b : byte) :
  (Byte.to_N a < Byte.to_N b)%N ->
  SFltb (normalize_sample a) (normalize_sample b) = true
  /\ normalize_sample Byte.x00 = zero
  /\ normalize_sample Byte.xff = astype float32 one.
Proof.
  intros Hlt. split; [| split; reflexivity].
  apply (increasing_lookup (map normalize_sample all_bytes)
           (N.to_nat (Byte.to_N a)) (N.to_nat (Byte.to_N b))).
  - apply normalized_levels_increasing.
  - lia.
  - rewrite lookup_map, all_bytes_lookup. reflexivity.
  - rewrite lookup_map, all_bytes_lookup. reflexivity.
Qed.

Lemma normalize_sample_increasing_witness :
  SFltb (normalize_sample Byte.x7f) (normalize_sample Byte.x80) = true
  /\ normalize_sample Byte.x00 = zero
  /\ normalize_sample Byte.xff = astype float32 one.
Proof.
  apply (normalize_sample_increasing Byte.x7f Byte.x80). reflexivity.
Defined.

(** ** create_block_letter_s: errors that reach the caller *)

Lemma float_of_int_not_infinite (n : Z) (x : pyfloat) :
  float_of_int n = Ok x -> forall s, x <> S754_infinity s.
Proof.
  unfold float_of_int.
  destruct (binary_normalize prec64 emax64 n 0 false);
    intros [= <-] sign; discriminate.
Qed.

Lemma compute_font_size_nonfinite (height width : Z) (ratio : pyfloat) :
  is_nonfinite ratio = true ->
  exists e,
    compute_font_size height width ratio = Raise e
    /\ (exn_cls e = ValueError \/ exn_cls e = OverflowError).
Proof.
  intros Hr. unfold compute_font_size, py_mul, to_float, Py.bind.
  destruct (float_of_int (Z.min height width)) as [x|e] eqn:Ex.
  - pose proof (float_of_int_not_infinite _ _ Ex) as Hx.
    destruct ratio as [s|s| |s m e]; try discriminate;
      destruct x as [sx|sx| |sx mx ex]; cbn;
      try (eexists; split; [reflexivity | cbn; auto]).
    all: exfalso; eapply Hx; reflexivity.
  - exists e. split; [reflexivity |].
    unfold float_of_int in Ex.
    destruct (binary_normalize prec64 emax64 (Z.min height width) 0 false);
      try discriminate.
    injection Ex as <-. cbn. auto.
Qed.

(** X7.  A font size ratio that is not a number, or is infinite, makes every
    call raise: what [Image.new] raised on the size, or else the
    [ValueError] or [OverflowError] of the conversion of the font size to an
    integer.  No raster is returned, and no font is looked for. *)
Theorem create_block_letter_s_nonfinite_ratio {pil : Pillow}
    (height width : Z) (letter : string) (font_size_ratio : pyfloat) :
  is_nonfinite font_size_ratio = true ->
  exists e,
    create_block_letter_s height width letter font_size_ratio = Raise e
    /\ (Image_new_check width height = Some e
        \/ (Image_new_check width height = None
            /\ compute_font_size height width font_size_ratio = Raise e
            /\ (exn_cls e = ValueError \/ exn_cls e = OverflowError))).
Proof.
  intros Hr.
  destruct (compute_font_size_nonfinite height width font_size_ratio Hr)
    as (e & He & Hc).
  unfold create_block_letter_s, Image_new, Py.bind.
  destruct (Image_new_check width height) as [e0|].
  - exists e0. auto.
  - rewrite He. exists e. auto.
Qed.

Lemma create_block_letter_s_nonfinite_ratio_witness :
  exists e,
    create_block_letter_s (pil := linux_dejavu) 12 10 "S" S754_nan = Raise e
    /\ (Image_new_check (Pillow := linux_dejavu) 10 12 = Some e
        \/ (Image_new_check (Pillow := linux_dejavu) 10 12 = None
            /\ compute_font_size 12 10 S754_nan = Raise e
            /\ (exn_cls e = ValueError \/ exn_cls e = OverflowError))).
Proof.
  apply (create_block_letter_s_nonfinite_ratio (pil := linux_dejavu)
           12 10 "S" S754_nan).
  reflexivity.
Defined.

(** X8.  Only an [OSError] of the font loader is absorbed.  When the canvas
    and the font size are there and loading the font that was found raises
    an exception of another class, the call raises that exception: with
    the default ratio a canvas of 1 by 1 asks for a font of size 0, which
    a loader may refuse so. *)
Theorem create_block_letter_s_font_error_propagates {pil : Pillow}
    (height width : Z) (letter : string) (font_size_ratio : pyfloat)
    (font_path : string) (font_size : Z) (e : exn) :
  Image_new_check width height = None ->
  compute_font_size height width font_size_ratio = Ok font_size ->
  _find_font_path = Some font_path ->
  truetype font_path font_size = Raise e ->
  exn_cls e <> OSError ->
  create_block_letter_s height width letter font_size_ratio = Raise e.
Proof.
  intros Hn Hf Hp Ht Hc.
  unfold create_block_letter_s, Image_new, Py.bind.
  rewrite Hn, Hf, resolve_font_eq, Hp, Ht.
  destruct (exn_class_eqb (exn_cls e) OSError) eqn:E; [| reflexivity].
  exfalso. apply Hc. destruct (exn_cls e); try discriminate. reflexivity.
Qed.

Lemma create_block_letter_s_font_error_propagates_witness :
  create_block_letter_s (pil := linux_dejavu) 1 1 "S" default_font_size_ratio
  = Raise (Exn ValueError "font size must be greater than 0").
Proof.
  apply (create_block_letter_s_font_error_propagates (pil := linux_dejavu)
           1 1 "S" default_font_size_ratio dejavu_bold 0);
    [reflexivity | reflexivity | reflexivity | reflexivity | discriminate].
Defined.

(** X9.  The measurement of the text fails in two ways.  When [textbbox]
    raises an [AttributeError] or a [TypeError] the call goes on with the
    estimated size and still draws with the font; when it raises anything
    else the call raises that. *)
Theorem create_block_letter_s_measure_error {pil : Pillow}
    (height width : Z) (letter : string) (font_size_ratio : pyfloat)
    (font_size : Z) (f : font) (e : exn) :
  Image_new_check width height = None ->
  compute_font_size height width font_size_ratio = Ok font_size ->
  resolve_font font_size = Ok (Some f) ->
  has_textbbox = true ->
  textbbox (blank_canvas width height) (PyInt 0, PyInt 0) letter f
  = Raise e ->
  if existsb (exn_class_eqb (exn_cls e)) [AttributeError; TypeError] then
    forall text_width text_height bbox_y_offset xy pixels,
      estimate_size font_size letter
      = Ok (text_width, text_height, bbox_y_offset) ->
      center_text height width text_width text_height bbox_y_offset
      = Ok xy ->
      draw_text (blank_canvas width height) xy letter Byte.x00 (Some f)
      = Ok pixels ->
      create_block_letter_s height width letter font_size_ratio
      = Ok (normalized_array (Image width height pixels))
  else
    create_block_letter_s height width letter font_size_ratio = Raise e.
Proof.
  intros Hn Hf Hr Hb Ht.
  assert (Hm : measure_text (blank_canvas width height) (Some f) font_size
                 letter
               = if existsb (exn_class_eqb (exn_cls e))
                      [AttributeError; TypeError]
                 then estimate_size font_size letter else Raise e).
  { unfold measure_text, try_except, Py.bind. rewrite Hb, Ht. reflexivity. }
  destruct (existsb (exn_class_eqb (exn_cls e)) [AttributeError; TypeError]).
  - intros tw th off xy px He Hc Hd.
    eapply create_block_letter_s_steps; try eassumption.
    rewrite Hm. exact He.
  - unfold create_block_letter_s, Image_new, Py.bind.
    rewrite Hn, Hf, Hr.
    change (Image width height (fun _ _ => Byte.xff))
      with (blank_canvas width height).
    rewrite Hm. reflexivity.
Qed.

Lemma create_block_letter_s_measure_error_witness :
  if existsb (exn_class_eqb (exn_cls (Exn TypeError "font")))
       [AttributeError; TypeError] then
    forall text_width text_height bbox_y_offset xy pixels,
      estimate_size 9 "S" = Ok (text_width, text_height, bbox_y_offset) ->
      center_text 12 10 text_width text_height bbox_y_offset = Ok xy ->
      draw_text
        (Pillow := failing_measure linux_dejavu (Exn TypeError "font"))
        (blank_canvas 10 12) xy "S" Byte.x00
        (Some {| cell_w := 4; cell_h := 9 |})
      = Ok pixels ->
      create_block_letter_s
        (pil := failing_measure linux_dejavu (Exn TypeError "font"))
        12 10 "S" default_font_size_ratio
      = Ok (normalized_array (Image 10 12 pixels))
  else
    create_block_letter_s
      (pil := failing_measure linux_dejavu (Exn TypeError "font"))
      12 10 "S" default_font_size_ratio
    = Raise (Exn TypeError "font").
Proof.
  apply (create_block_letter_s_measure_error
           (pil := failing_measure linux_dejavu (Exn TypeError "font"))
           12 10 "S" default_font_size_ratio 9
           {| cell_w := 4; cell_h := 9 |} (Exn TypeError "font"));
    reflexivity.
Defined.

(** ** The glyph raster as the mask *)

Lemma normalize_sample_below_half (b : byte) :
  less_scalar float32 (normalize_sample b) default_threshold
  = (Byte.to_N b <? 128)%N.
Proof. destruct b; vm_compute; reflexivity. Qed.

(** X10.  The two steps together.  When the raster that
    [create_block_letter_s] returned is the mask and the threshold is the
    default 0.5, the masked array is 1.0 exactly at the pixels where the
    drawn canvas holds an 8-bit sample below 128 and the source sample at
    all the others. *)
Theorem glyph_mask_erases_dark_pixels {pil : Pillow}
    (height width : Z) (letter : string) (font_size_ratio : pyfloat)
    (r : ndarray) (h : heap) (stipple_img mask_img : loc) (s : ndarray) :
  create_block_letter_s height width letter font_size_ratio = Ok r ->
  h !! stipple_img = Some s -> h !! mask_img = Some r ->
  shape s = shape r -> well_formed s ->
  exists xy fnt pixels res,
    draw_text (blank_canvas width height) xy letter Byte.x00 fnt = Ok pixels
    /\ create_masked_stipple stipple_img mask_img default_threshold h
       = Some (Ok (length h), h ++ [res])
    /\ forall row col,
         (row < Z.to_nat height)%nat -> (col < Z.to_nat width)%nat ->
         exists vs,
           getitem2 s row col = Some vs
           /\ getitem2 res row col
              = Some (if (Byte.to_N (pixels (Z.of_nat col) (Z.of_nat row))
                          <? 128)%N
                      then astype (dtype_of s) one else vs).
Proof.
  intros Hr Hs Hm Heq Ws.
  destruct (create_block_letter_s_Ok _ _ _ _ r Hr)
    as (fs & fnt & tw & th & off & xy & px & _ & _ & _ & _ & _ & Hd & ->).
  exists xy, fnt, px, (masked_array s (normalized_array (Image width height px))
                         default_threshold).
  split; [exact Hd |].
  split; [apply create_masked_stipple_returns; assumption |].
  intros row col Hrow Hcol.
  assert (Hsh : shape s = [Z.to_nat height; Z.to_nat width]) by exact Heq.
  destruct (getitem2_in_range s (Z.to_nat height) (Z.to_nat width) row col
              Hsh Ws Hrow Hcol) as (vs & Gs & _).
  exists vs. split; [exact Gs |].
  rewrite (getitem2_masked s
             (normalized_array (Image width height px)) default_threshold
             (Z.to_nat height) (Z.to_nat width) row col vs
             (normalize_sample (px (Z.of_nat col) (Z.of_nat row)))
             Hsh eq_refl Gs
             (normalized_array_getitem width height px row col Hrow Hcol)).
  cbn [dtype_of normalized_array].
  rewrite normalize_sample_below_half. reflexivity.
Qed.

Lemma glyph_mask_erases_dark_pixels_witness :
  exists xy fnt pixels res,
    draw_text (Pillow := linux_dejavu) (blank_canvas 10 12) xy "S"
      Byte.x00 fnt = Ok pixels
    /\ create_masked_stipple 0%nat 1%nat default_threshold
         [sample_gray; sample_glyph]
       = Some (Ok 2%nat, [sample_gray; sample_glyph] ++ [res])
    /\ forall row col,
         (row < Z.to_nat 12)%nat -> (col < Z.to_nat 10)%nat ->
         exists vs,
           getitem2 sample_gray row col = Some vs
           /\ getitem2 res row col
              = Some (if (Byte.to_N (pixels (Z.of_nat col) (Z.of_nat row))
                          <? 128)%N
                      then astype (dtype_of sample_gray) one else vs).
Proof.
  apply (glyph_mask_erases_dark_pixels (pil := linux_dejavu)
           12 10 "S" default_font_size_ratio sample_glyph
           [sample_gray; sample_glyph] 0%nat 1%nat sample_gray);
    reflexivity.
Defined.

(** ** create_statistics_meme: the calls into Matplotlib *)

Lemma check_shapes_all (images : list (string * ndarray)) (sh : list nat) :
  Forall (fun p => shape (snd p) = sh) images ->
  check_shapes images sh = Ok tt.
Proof.
  induction 1 as [|[name img] rest Hx _ IH]; cbn [check_shapes];
    [reflexivity |].
  cbn in Hx. rewrite bool_decide_false by (intros N; exact (N Hx)). exact IH.
Qed.

Ltac step_call c := destruct (mpl_raises _ c); [reflexivity |].

(** With equal shapes the function makes the calls of [meme_calls], one
    after the other. *)
Lemma create_statistics_meme_calls {mpl : Matplotlib}
    (o s b m : ndarray) (path : string) (dpi : Z) (bg : string)
    (log : list mpl_call) :
  shape s = shape o -> shape b = shape o -> shape m = shape o ->
  create_statistics_meme o s b m path dpi bg log
  = run_calls (meme_calls o s b m path dpi bg) log.
Proof.
  intros Hs Hb Hm. unfold create_statistics_meme.
  rewrite check_shapes_all by (repeat constructor; assumption).
  unfold meme_calls, panel_calls. cbn [app run_calls seq for_each].
  unfold draw_panel, getitem. cbn [lookup list_lookup].
  unfold Meme.bind, Meme.lift, Meme.ret, call.
  step_call (Figure bg dpi). step_call (GridSpec 1 4).
  step_call (AddSubplot 0). step_call (Imshow 0 o).
  step_call (AxisOff 0). step_call (AxText 0 "Reality").
  step_call (AddSubplot 1). step_call (Imshow 1 s).
  step_call (AxisOff 1). step_call (AxText 1 "Your Model").
  step_call (AddSubplot 2). step_call (Imshow 2 b).
  step_call (AxisOff 2). step_call (AxText 2 "Selection Bias").
  step_call (AddSubplot 3). step_call (Imshow 3 m).
  step_call (AxisOff 3). step_call (AxText 3 "Estimate").
  step_call (Savefig path dpi bg).
  destruct (mpl_raises _ Close); reflexivity.
Qed.

(** A list of calls runs to its end when none raises, and stops after the
    first that does. *)
Lemma run_calls_spec {mpl : Matplotlib} (cs : list mpl_call)
    (log : list mpl_call) :
  match run_calls cs log with
  | (Ok _, log') =>
      log' = log ++ cs
      /\ forall k c, cs !! k = Some c ->
           mpl_raises (log ++ take k cs) c = None
  | (Raise e, log') =>
      exists k c,
        cs !! k = Some c
        /\ log' = log ++ take (S k) cs
        /\ mpl_raises (log ++ take k cs) c = Some e
        /\ forall j c', (j < k)%nat -> cs !! j = Some c' ->
             mpl_raises (log ++ take j cs) c' = None
  end.
Proof.
  revert log. induction cs as [|c cs IH]; intros log.
  - cbn. split; [rewrite app_nil_r; reflexivity | intros k c Hk].
    rewrite lookup_nil in Hk. discriminate.
  - cbn [run_calls]. unfold Meme.bind, call.
    destruct (mpl_raises log c) as [e|] eqn:Ec.
    + exists 0%nat, c. cbn. rewrite app_nil_r. repeat split; auto.
      intros j c' Hj. lia.
    + specialize (IH (log ++ [c])).
      destruct (run_calls cs (log ++ [c])) as [[u|e] log'].
      * destruct IH as [-> IH]. split.
        -- rewrite <- app_assoc. reflexivity.
        -- intros [|k] c' Hk; cbn in *.
           ++ injection Hk as <-. rewrite app_nil_r. exact Ec.
           ++ specialize (IH k c' Hk). rewrite <- app_assoc in IH. exact IH.
      * destruct IH as (k & c' & Hk & -> & He & Hbefore).
        exists (S k), c'. cbn. rewrite <- !app_assoc in *.
        repeat split; auto.
        intros [|j] c'' Hj Hc''; cbn in *.
        -- injection Hc'' as <-. rewrite app_nil_r. exact Ec.
        -- specialize (Hbefore j c'' ltac:(lia) Hc'').
           rewrite <- app_assoc in Hbefore. exact Hbefore.
Qed.

(** X11.  When the four panels have one shape and no call into Matplotlib
    raises, the function returns after exactly these calls, in this order:
    the figure, the grid, then for each of the panels original, stipple,
    block letter and masked stipple its subplot, its image, its axes
    switched off and its label (Reality, Your Model, Selection Bias,
    Estimate), then the file is saved and the figure is closed. *)
Theorem create_statistics_meme_call_sequence {mpl : Matplotlib}
    (original_img stipple_img block_letter_img masked_stipple_img : ndarray)
    (output_path : string) (dpi : Z) (background_color : string)
    (log : list mpl_call) :
  shape stipple_img = shape original_img ->
  shape block_letter_img = shape original_img ->
  shape masked_stipple_img = shape original_img ->
  (forall done c,
     In c (meme_calls original_img stipple_img block_letter_img
             masked_stipple_img output_path dpi background_color) ->
     mpl_raises done c = None) ->
  create_statistics_meme original_img stipple_img block_letter_img
    masked_stipple_img output_path dpi background_color log
  = (Ok tt,
     log ++ [ Figure background_color dpi; GridSpec 1 4;
              AddSubplot 0; Imshow 0 original_img; AxisOff 0;
              AxText 0 "Reality";
              AddSubplot 1; Imshow 1 stipple_img; AxisOff 1;
              AxText 1 "Your Model";
              AddSubplot 2; Imshow 2 block_letter_img; AxisOff 2;
              AxText 2 "Selection Bias";
              AddSubplot 3; Imshow 3 masked_stipple_img; AxisOff 3;
              AxText 3 "Estimate";
              Savefig output_path dpi background_color; Close ]).
Proof.
  intros Hs Hb Hm Hquiet.
  rewrite create_statistics_meme_calls by assumption.
  pose proof (run_calls_spec
                (meme_calls original_img stipple_img block_letter_img
                   masked_stipple_img output_path dpi background_color)
                log) as Hrun.
  destruct (run_calls _ log) as [[[]|e] log'].
  - destruct Hrun as [-> _]. reflexivity.
  - destruct Hrun as (k & c & Hk & _ & He & _).
    rewrite Hquiet in He; [discriminate |].
    apply list_elem_of_In. eapply list_elem_of_lookup_2. exact Hk.
Qed.

Lemma create_statistics_meme_call_sequence_witness :
  create_statistics_meme (mpl := quiet_matplotlib)
    sample_stipple sample_mask sample_mask2 sample_stipple
    "meme.png" 150 "white" []
  = (Ok tt,
     [] ++ [ Figure "white" 150; GridSpec 1 4;
             AddSubplot 0; Imshow 0 sample_stipple; AxisOff 0;
             AxText 0 "Reality";
             AddSubplot 1; Imshow 1 sample_mask; AxisOff 1;
             AxText 1 "Your Model";
             AddSubplot 2; Imshow 2 sample_mask2; AxisOff 2;
             AxText 2 "Selection Bias";
             AddSubplot 3; Imshow 3 sample_stipple; AxisOff 3;
             AxText 3 "Estimate";
             Savefig "meme.png" 150 "white"; Close ]).
Proof.
  apply (create_statistics_meme_call_sequence (mpl := quiet_matplotlib)
           sample_stipple sample_mask sample_mask2 sample_stipple
           "meme.png" 150 "white" []);
    reflexivity.
Defined.

(** X12.  There is no clean-up.  When the four panels have one shape and
    the call raises, it raises what the first failing call into Matplotlib
    raised, every call before that one was made and no call after it; unless
    the failing call was [close] itself, the figure has not been closed. *)
Theorem create_statistics_meme_stops_at_failure {mpl : Matplotlib}
    (original_img stipple_img block_letter_img masked_stipple_img : ndarray)
    (output_path : string) (dpi : Z) (background_color : string)
    (log log' : list mpl_call) (e : exn) :
  shape stipple_img = shape original_img ->
  shape block_letter_img = shape original_img ->
  shape masked_stipple_img = shape original_img ->
  create_statistics_meme original_img stipple_img block_letter_img
    masked_stipple_img output_path dpi background_color log
  = (Raise e, log') ->
  exists k c,
    meme_calls original_img stipple_img block_letter_img masked_stipple_img
      output_path dpi background_color !! k = Some c
    /\ log' = log ++ take (S k)
                (meme_calls original_img stipple_img block_letter_img
                   masked_stipple_img output_path dpi background_color)
    /\ mpl_raises
         (log ++ take k
            (meme_calls original_img stipple_img block_letter_img
               masked_stipple_img output_path dpi background_color))
         c = Some e
    /\ (c <> Close ->
        ~ In Close
            (take (S k)
               (meme_calls original_img stipple_img block_letter_img
                  masked_stipple_img output_path dpi background_color))).
Proof.
  intros Hs Hb Hm Hrun.
  rewrite create_statistics_meme_calls in Hrun by assumption.
  pose proof (run_calls_spec
                (meme_calls original_img stipple_img block_letter_img
                   masked_stipple_img output_path dpi background_color)
                log) as Hspec.
  rewrite Hrun in Hspec. destruct Hspec as (k & c & Hk & Hlog & He & _).
  exists k, c. repeat split; try assumption.
  intros Hc Hin. clear - Hk Hc Hin.
  unfold meme_calls, panel_calls in *. cbn [app] in *.
  do 20 (destruct k as [|k];
         [cbn in Hk, Hin; simplify_eq; intuition congruence |]).
  cbn in Hk. discriminate.
Qed.

Lemma create_statistics_meme_stops_at_failure_witness :
  exists k c,
    meme_calls sample_stipple sample_mask sample_mask2 sample_stipple
      "meme.png" 150 "white" !! k = Some c
    /\ [ Figure "white" 150; GridSpec 1 4;
         AddSubplot 0; Imshow 0 sample_stipple; AxisOff 0; AxText 0 "Reality";
         AddSubplot 1; Imshow 1 sample_mask; AxisOff 1;
         AxText 1 "Your Model";
         AddSubplot 2; Imshow 2 sample_mask2; AxisOff 2;
         AxText 2 "Selection Bias";
         AddSubplot 3; Imshow 3 sample_stipple; AxisOff 3;
         AxText 3 "Estimate";
         Savefig "meme.png" 150 "white" ]
       = [] ++ take (S k)
                 (meme_calls sample_stipple sample_mask sample_mask2
                    sample_stipple "meme.png" 150 "white")
    /\ mpl_raises (Matplotlib := readonly_matplotlib)
         ([] ++ take k
                  (meme_calls sample_stipple sample_mask sample_mask2
                     sample_stipple "meme.png" 150 "white"))
         c = Some (Exn OSError "Permission denied")
    /\ (c <> Close ->
        ~ In Close
            (take (S k)
               (meme_calls sample_stipple sample_mask sample_mask2
                  sample_stipple "meme.png" 150 "white"))).
Proof.
  apply (create_statistics_meme_stops_at_failure (mpl := readonly_matplotlib)
           sample_stipple sample_mask sample_mask2 sample_stipple
           "meme.png" 150 "white" []);
    reflexivity.
Defined.

(** X13.  Which panel the error names.  The panels are compared with the
    first one in the order stipple, block letter, masked stipple, and the
    first of them whose shape is not the shape of the original is the one
    that the error names, with the shape of the original as the expected
    one.  The original is never named: when it alone has another shape, the
    error blames the stipple panel. *)
Theorem create_statistics_meme_reported_panel {mpl : Matplotlib}
    (original_img stipple_img block_letter_img masked_stipple_img : ndarray)
    (output_path : string) (dpi : Z) (background_color : string)
    (log : list mpl_call) :
  (shape stipple_img <> shape original_img ->
   create_statistics_meme original_img stipple_img block_letter_img
     masked_stipple_img output_path dpi background_color log
   = (Raise (panel_error "stipple" (shape stipple_img)
               (shape original_img)), log))
  /\ (shape stipple_img = shape original_img ->
      shape block_letter_img <> shape original_img ->
      create_statistics_meme original_img stipple_img block_letter_img
        masked_stipple_img output_path dpi background_color log
      = (Raise (panel_error "block_letter" (shape block_letter_img)
                  (shape original_img)), log))
  /\ (shape stipple_img = shape original_img ->
      shape block_letter_img = shape original_img ->
      shape masked_stipple_img <> shape original_img ->
      create_statistics_meme original_img stipple_img block_letter_img
        masked_stipple_img output_path dpi background_color log
      = (Raise (panel_error "masked_stipple" (shape masked_stipple_img)
                  (shape original_img)), log)).
Proof.
  unfold create_statistics_meme, Meme.bind, Meme.lift.
  cbn [check_shapes].
  rewrite (bool_decide_false (shape original_img <> shape original_img))
    by (intros N; apply N; reflexivity).
  split; [| split].
  - intros Hs. rewrite bool_decide_true by exact Hs. reflexivity.
  - intros Hs Hb.
    rewrite bool_decide_false by (intros N; exact (N Hs)).
    rewrite bool_decide_true by exact Hb. reflexivity.
  - intros Hs Hb Hm.
    rewrite bool_decide_false by (intros N; exact (N Hs)).
    rewrite bool_decide_false by (intros N; exact (N Hb)).
    rewrite bool_decide_true by exact Hm. reflexivity.
Qed.

(** The original alone is wider: the stipple panel is blamed. *)
Example create_statistics_meme_odd_original :
  create_statistics_meme (mpl := quiet_matplotlib)
    sample_wide sample_stipple sample_stipple sample_stipple
    "meme.png" 150 "white" []
  = (Raise (Exn ValueError
      "All images must have the same shape. stipple_img shape: (2, 2), expected: (2, 3)"),
     []).
Proof. reflexivity. Qed.
